(** * Rolling z-score anomaly detector: a shallow embedding

    Embedding of [src/anomaly_detector.py] (class [ZScoreAnomalyDetector])
    together with the three cases of [tests/test_anomaly_detector.py].

    Samples, means and standard deviations are IEEE 754 binary64 numbers,
    as Python's [float] and numpy's [float64] are; they are modelled by
    Rocq's primitive [float], whose operations are the binary64 operations
    with round-to-nearest-even.  Integers ([window_size], [len]) are [Z].
    A method that can raise returns a [Result]; a method of the detector
    threads [self] through a state-and-error monad. *)

From Stdlib Require Import ZArith List Bool Lia String.
From Stdlib Require Import Floats.
From stdpp Require Import base option list gmap.
Import ListNotations.

#[local] Open Scope Z_scope.

(* Decimal literals such as [0.1] denote the nearest binary64 number, as
   they do in Python. *)
#[local] Set Warnings "-inexact-float".

(** ** Exceptions and the result of a fallible call *)

Inductive exn : Type :=
  | ValueError (msg : string)
  | OverflowError (msg : string)
  | NameError (ref : positive).

Inductive Result (A : Type) : Type :=
  | Ok (a : A)
  | Raise (e : exn).
Arguments Ok {A} a.
Arguments Raise {A} e.

Definition outputs {A S} (r : Result (A * S)) : option A :=
  match r with Ok (a, _) => Some a | Raise _ => None end.

(** ** [collections.deque] with a [maxlen] *)

Module Deque.

Record deque : Type := mk {
  maxlen : Z;
  items : list float        (* oldest first *)
}.

(** The largest [Py_ssize_t] (64-bit CPython). *)
Definition PY_SSIZE_T_MAX : Z := 9223372036854775807.

(** [deque(maxlen=n)]: an empty bounded deque.  The bound is first
    converted to a [Py_ssize_t], which fails for an integer out of its
    range; a negative bound is then refused. *)
Definition create (n : Z) : Result deque :=
  if (n <? - PY_SSIZE_T_MAX - 1) || (PY_SSIZE_T_MAX <? n) then
    Raise (OverflowError "Python int too large to convert to C ssize_t")
  else if n <? 0 then Raise (ValueError "maxlen must be non-negative")
  else Ok {| maxlen := n; items := [] |}.

Definition len (d : deque) : Z := Z.of_nat (length (items d)).

(** [d.append(x)]: push on the right, then drop the leftmost element
    when the bound is exceeded. *)
Definition append (d : deque) (x : float) : deque :=
  let l := items d ++ [x] in
  {| maxlen := maxlen d;
     items := if maxlen d <? Z.of_nat (length l) then tl l else l |}.

End Deque.

(** ** The two numpy reductions the detector calls

    [np.mean(a)] is [add.reduce(a) / n]; [np.std(a)], with its default
    [ddof = 0], is [sqrt(add.reduce(x * x) / n)] for [x = a - mean(a)]:
    the divisor is the number of elements.

    [add.reduce] over a contiguous array of doubles adds numpy's pairwise
    sum of the array to the identity [0.0].  The pairwise sum adds fewer
    than eight elements one after the other from [0.0]; it adds up to
    [PW_BLOCKSIZE = 128] elements in eight interleaved accumulators, which
    are combined two by two before the elements left over are added; and
    it splits a longer array in two parts, the first a multiple of eight,
    sums each part in the same way and adds the two.  (Recent releases
    start from [-0.0] instead of [0.0]; this changes nothing but the sign
    of the sum of an array of zeros.)

    Neither function raises: numpy signals a division by zero or an
    invalid operation through a warning, and on an empty array the result
    is [0.0 / 0 = nan]. *)

Module Np.

Definition of_len (a : list float) : float :=
  PrimFloat.of_uint63 (Uint63.of_Z (Z.of_nat (length a))).

(** [res = 0.; for (i = 0; i < n; i++) res += a[i]] *)
Definition sum_sequential (from : float) (a : list float) : float :=
  fold_left PrimFloat.add a from.

(** The loop over the blocks of eight, the eight accumulators being
    [r0 .. r7]; then [((r0+r1)+(r2+r3)) + ((r4+r5)+(r6+r7))], and the
    elements left over one after the other. *)
Fixpoint sum_unrolled (r0 r1 r2 r3 r4 r5 r6 r7 : float) (a : list float) : float :=
  match a with
  | a0 :: a1 :: a2 :: a3 :: a4 :: a5 :: a6 :: a7 :: rest =>
      sum_unrolled (PrimFloat.add r0 a0) (PrimFloat.add r1 a1)
                   (PrimFloat.add r2 a2) (PrimFloat.add r3 a3)
                   (PrimFloat.add r4 a4) (PrimFloat.add r5 a5)
                   (PrimFloat.add r6 a6) (PrimFloat.add r7 a7) rest
  | rest =>
      sum_sequential
        (PrimFloat.add
           (PrimFloat.add (PrimFloat.add r0 r1) (PrimFloat.add r2 r3))
           (PrimFloat.add (PrimFloat.add r4 r5) (PrimFloat.add r6 r7)))
        rest
  end.

(** A block of eight elements or more: the accumulators start as the
    first eight elements. *)
Definition sum_block (a : list float) : float :=
  match a with
  | a0 :: a1 :: a2 :: a3 :: a4 :: a5 :: a6 :: a7 :: rest =>
      sum_unrolled a0 a1 a2 a3 a4 a5 a6 a7 rest
  | _ => sum_sequential PrimFloat.zero a
  end.

Definition PW_BLOCKSIZE : nat := 128.

(** [pairwise_sum(a, n)]; the recursion halves the array, so that a depth
    of [fuel = n] is never exhausted (lemma [pairwise_sum_rec_fuel]). *)
Fixpoint pairwise_sum_rec (fuel : nat) (a : list float) : float :=
  let n := length a in
  if (n <? 8)%nat then sum_sequential PrimFloat.zero a
  else if (n <=? PW_BLOCKSIZE)%nat then sum_block a
  else
    match fuel with
    | O => sum_block a
    | S fuel =>
        let n2 := (n / 2 - (n / 2) mod 8)%nat in
        PrimFloat.add (pairwise_sum_rec fuel (take n2 a))
                      (pairwise_sum_rec fuel (drop n2 a))
    end.

Definition pairwise_sum (a : list float) : float :=
  pairwise_sum_rec (length a) a.

(** [np.add.reduce(a)] *)
Definition sum (a : list float) : float :=
  PrimFloat.add PrimFloat.zero (pairwise_sum a).

Definition mean (a : list float) : float :=
  PrimFloat.div (sum a) (of_len a).

Definition var (a : list float) : float :=
  let arrmean := mean a in
  let x := map (fun v => PrimFloat.sub v arrmean) a in
  let x := map (fun v => PrimFloat.mul v v) x in
  PrimFloat.div (sum x) (of_len a).

Definition std (a : list float) : float := PrimFloat.sqrt (var a).

End Np.

(** ** The detector *)

Record Detector : Type := mkDetector {
  window_size : Z;
  threshold : float;
  data_window : Deque.deque
}.

(** A method body: it reads and updates [self] and returns a value or
    raises. *)
Definition M (A : Type) : Type := Detector -> Result (A * Detector).

Definition ret {A} (a : A) : M A := fun self => Ok (a, self).

Definition bind {A B} (m : M A) (k : A -> M B) : M B :=
  fun self =>
    match m self with
    | Ok (a, self') => k a self'
    | Raise e => Raise e
    end.

Notation "'let!' x ':=' m 'in' k" := (bind m (fun x => k))
  (at level 10, x name, m at level 200, k at level 200).

Definition get_self : M Detector := fun self => Ok (self, self).

(** [self.data_window.append(x)] *)
Definition push (x : float) (self : Detector) : Detector :=
  {| window_size := window_size self;
     threshold := threshold self;
     data_window := Deque.append (data_window self) x |}.

Definition window_append (x : float) : M unit :=
  fun self => Ok (tt, push x self).

(** [ZScoreAnomalyDetector(window_size, threshold)] *)
Definition new (window_size : Z) (threshold : float) : Result Detector :=
  match Deque.create window_size with
  | Ok dq => Ok {| window_size := window_size;
                   threshold := threshold;
                   data_window := dq |}
  | Raise e => Raise e
  end.

(** [detect(self, new_value)] *)
Definition detect (new_value : float) : M bool :=
  let! _ := window_append new_value in
  let! self := get_self in
  if Deque.len (data_window self) <? window_size self then
    ret false
  else
    let mean := Np.mean (Deque.items (data_window self)) in
    let std_dev := Np.std (Deque.items (data_window self)) in
    if PrimFloat.eqb std_dev PrimFloat.zero then
      ret false
    else
      let z_score := PrimFloat.div (PrimFloat.sub new_value mean) std_dev in
      ret (PrimFloat.ltb (threshold self) (PrimFloat.abs z_score)).

(** Feeding a stream to one detector: the calls in order, with their
    outputs. *)
Fixpoint detect_all (samples : list float) : M (list bool) :=
  match samples with
  | [] => ret []
  | x :: rest =>
      let! b := detect x in
      let! bs := detect_all rest in
      ret (b :: bs)
  end.

(** A fresh detector fed a stream, as the test cases do. *)
Definition run (window_size : Z) (threshold : float) (samples : list float)
  : Result (list bool * Detector) :=
  match new window_size threshold with
  | Ok d => detect_all samples d
  | Raise e => Raise e
  end.

Definition window_of (r : Result (list bool * Detector)) : option (list float) :=
  match r with
  | Ok (_, d) => Some (Deque.items (data_window d))
  | Raise _ => None
  end.

(** The stream of [n] samples [1.0] of the test cases. *)
Definition ones (n : nat) : list float := replicate n 1.0%float.

(** ** The method body in closed form *)

(** What [detect] answers once the sample is in the window. *)
Definition verdict (x : float) (self : Detector) : bool :=
  if Deque.len (data_window self) <? window_size self then false
  else
    let w := Deque.items (data_window self) in
    if PrimFloat.eqb (Np.std w) PrimFloat.zero then false
    else PrimFloat.ltb (threshold self)
           (PrimFloat.abs (PrimFloat.div (PrimFloat.sub x (Np.mean w)) (Np.std w))).

(** Outputs and final state of a stream, by recursion on the stream. *)
Fixpoint verdicts (samples : list float) (self : Detector) : list bool :=
  match samples with
  | [] => []
  | x :: rest => verdict x (push x self) :: verdicts rest (push x self)
  end.

Definition push_all (samples : list float) (self : Detector) : Detector :=
  fold_left (fun d x => push x d) samples self.

(** The last [n] elements of a stream, oldest first. *)
Definition last_n (n : nat) (l : list float) : list float :=
  drop (length l - n) l.

(** ** The evaluation rule in the specification's words *)

Module Spec.

(** The binary64 value of a count. *)
Definition of_count (n : Z) : float := PrimFloat.of_uint63 (Uint63.of_Z n).

(** Arithmetic mean of the [W] elements of the window. *)
Definition arithmetic_mean (W : Z) (w : list float) : float :=
  PrimFloat.div (Np.sum w) (of_count W).

(** Population standard deviation: the divisor is [W], not [W - 1]. *)
Definition population_std_dev (W : Z) (w : list float) : float :=
  let m := arithmetic_mean W w in
  let sq v := PrimFloat.mul (PrimFloat.sub v m) (PrimFloat.sub v m) in
  PrimFloat.sqrt (PrimFloat.div (Np.sum (map sq w)) (of_count W)).

Definition z_score (W : Z) (w : list float) (sample : float) : float :=
  PrimFloat.div (PrimFloat.sub sample (arithmetic_mean W w))
                (population_std_dev W w).

End Spec.

(** ** Several detectors in one program

    A program may hold several detectors.  Each constructor call makes a
    new object with a deque of its own ([self.data_window = deque(...)] in
    [__init__]); the class has no class-level or module-level state.  The
    store maps object references to detector states. *)

Definition alloc (W : Z) (t : float) (h : gmap positive Detector)
  : Result (positive * gmap positive Detector) :=
  match new W t with
  | Ok d => let r := fresh (dom h) in Ok (r, <[r := d]> h)
  | Raise e => Raise e
  end.

(** [r.detect(x)] on the object at reference [r]. *)
Definition call_detect (r : positive) (x : float) (h : gmap positive Detector)
  : Result (bool * gmap positive Detector) :=
  match h !! r with
  | Some self =>
      match detect x self with
      | Ok (b, self') => Ok (b, <[r := self']> h)
      | Raise e => Raise e
      end
  | None => Raise (NameError r)
  end.

(** A sequence of calls, each on some detector, in program order. *)
Fixpoint exec (calls : list (positive * float)) (h : gmap positive Detector)
  : Result (list (positive * bool) * gmap positive Detector) :=
  match calls with
  | [] => Ok ([], h)
  | (r, x) :: rest =>
      match call_detect r x h with
      | Ok (b, h') =>
          match exec rest h' with
          | Ok (outs, h'') => Ok ((r, b) :: outs, h'')
          | Raise e => Raise e
          end
      | Raise e => Raise e
      end
  end.

(** What one detector received, or answered, among the calls. *)
Fixpoint at_ref {A : Type} (r : positive) (l : list (positive * A)) : list A :=
  match l with
  | [] => []
  | (r', a) :: rest => if Pos.eqb r' r then a :: at_ref r rest else at_ref r rest
  end.

(** ** Classes of binary64 numbers, on their specification values *)

Definition SFis_finite (x : spec_float) : bool :=
  match x with
  | S754_zero _ | S754_finite _ _ _ => true
  | S754_infinity _ | S754_nan => false
  end.

(** The specification value of [1.0]. *)
Definition SFone64 : spec_float := S754_finite false 4503599627370496 (-52).

(** ** The sample generator ([src/data_stream.py])

    [np.sin] and numpy's global random generator are not part of the
    repository: they are taken as given, the generator's hidden state being
    threaded explicitly through the three draws the code makes. *)

Class Numpy : Type := {
  rng : Type;
  np_sin : float -> float;
  random_normal : float -> float -> rng -> float * rng;
  random_rand : rng -> float * rng;
  random_uniform : float -> float -> rng -> float * rng
}.

Definition STREAM_LENGTH : Z := 1000.
Definition NOISE_LEVEL : float := 0.5%float.
Definition SEASONAL_AMPLITUDE : Z := 5.
Definition SEASONAL_PERIOD : Z := 50.

(** [np.pi] *)
Definition np_pi : float := 0x1.921fb54442d18p+1%float.

(** The binary64 value of a Python [int] used in float arithmetic (exact
    below [2^53] in magnitude). *)
Definition float_of_int (n : Z) : float :=
  if n <? 0 then PrimFloat.opp (PrimFloat.of_uint63 (Uint63.of_Z (- n)))
  else PrimFloat.of_uint63 (Uint63.of_Z n).

(** The body of the loop of [data_stream_simulation] at index [i]: the
    value yielded, and the random generator after the draws. *)
Definition next_value `{Numpy} (i : Z) (g : rng) : float * rng :=
  let seasonal_value :=
    PrimFloat.mul (float_of_int SEASONAL_AMPLITUDE)
      (np_sin
         (PrimFloat.div
            (PrimFloat.mul (PrimFloat.mul (float_of_int 2) np_pi) (float_of_int i))
            (float_of_int SEASONAL_PERIOD))) in
  let (noise, g) := random_normal (float_of_int 0) NOISE_LEVEL g in
  let (r, g) := random_rand g in
  if PrimFloat.ltb r 0.02%float then
    let (u, g) := random_uniform (float_of_int 10) (float_of_int 20) g in
    (PrimFloat.add (PrimFloat.add seasonal_value noise) u, g)
  else
    (PrimFloat.add seasonal_value noise, g).

Fixpoint generate `{Numpy} (indices : list Z) (g : rng) : list float :=
  match indices with
  | [] => []
  | i :: rest => let (v, g') := next_value i g in v :: generate rest g'
  end.

(** [data_stream_simulation()]: the generator, as the list of the values
    it yields, in order; [next] takes the first and raises [StopIteration]
    when none is left. *)
Definition data_stream_simulation `{Numpy} (g : rng) : list float :=
  generate (seqZ 0 STREAM_LENGTH) g.

(** ** The plot's bookkeeping ([src/visualization.py])

    The state [real_time_plot] sets up and its [update] closure works on:
    the stream, the detector, the four lists, and the data last handed to
    the two artists ([line.set_data], [scatter.set_offsets]).  Drawing,
    the timer and the figure are matplotlib's. *)

Definition WINDOW_SIZE : Z := 50.
Definition ANOMALY_THRESHOLD : float := 3.0%float.

Inductive raised : Type :=
  | StopIteration
  | Exn (e : exn).

(** How a call ended; the state it left is returned beside it, since a
    Python exception does not undo the appends made before it. *)
Inductive Outcome : Type :=
  | Returned
  | Raised (e : raised).

Record Plot : Type := mkPlot {
  data_stream : list float;
  anomaly_detector : Detector;
  x_data : list Z;
  y_data : list float;
  anomalies_x : list Z;
  anomalies_y : list float;
  line_data : list Z * list float;
  scatter_offsets : list (float * float)
}.

(** [np.c_[xs, ys]] for two one-dimensional sequences: the rows
    [(x_i, y_i)] as binary64 numbers; sequences of different lengths are
    refused. *)
Definition np_c_ (xs : list Z) (ys : list float) : Result (list (float * float)) :=
  if Nat.eqb (length xs) (length ys) then Ok (zip (map float_of_int xs) ys)
  else Raise (ValueError "all the input array dimensions except for the concatenation axis must match exactly").

(** The state at the start of [real_time_plot], for a given stream. *)
Definition setup (stream : list float) : Result Plot :=
  match new WINDOW_SIZE ANOMALY_THRESHOLD with
  | Ok d => Ok {| data_stream := stream;
                  anomaly_detector := d;
                  x_data := []; y_data := [];
                  anomalies_x := []; anomalies_y := [];
                  line_data := ([], []);
                  scatter_offsets := [] |}
  | Raise e => Raise e
  end.

(** [init()] *)
Definition init (p : Plot) : Plot :=
  {| data_stream := data_stream p;
     anomaly_detector := anomaly_detector p;
     x_data := x_data p; y_data := y_data p;
     anomalies_x := anomalies_x p; anomalies_y := anomalies_y p;
     line_data := ([], []);
     scatter_offsets := [] |}.

(** [update(frame)] *)
Definition update (frame : Z) (p : Plot) : Outcome * Plot :=
  match data_stream p with
  | [] => (Raised StopIteration, p)
  | new_value :: rest =>
      let xs := x_data p ++ [frame] in
      let ys := y_data p ++ [new_value] in
      match detect new_value (anomaly_detector p) with
      | Raise e =>
          (Raised (Exn e),
           {| data_stream := rest;
              anomaly_detector := anomaly_detector p;
              x_data := xs; y_data := ys;
              anomalies_x := anomalies_x p; anomalies_y := anomalies_y p;
              line_data := line_data p;
              scatter_offsets := scatter_offsets p |})
      | Ok (is_anomaly, detector) =>
          let ax := if is_anomaly then anomalies_x p ++ [frame] else anomalies_x p in
          let ay := if is_anomaly then anomalies_y p ++ [new_value] else anomalies_y p in
          match np_c_ ax ay with
          | Raise e =>
              (Raised (Exn e),
               {| data_stream := rest;
                  anomaly_detector := detector;
                  x_data := xs; y_data := ys;
                  anomalies_x := ax; anomalies_y := ay;
                  line_data := (xs, ys);
                  scatter_offsets := scatter_offsets p |})
          | Ok offsets =>
              (Returned,
               {| data_stream := rest;
                  anomaly_detector := detector;
                  x_data := xs; y_data := ys;
                  anomalies_x := ax; anomalies_y := ay;
                  line_data := (xs, ys);
                  scatter_offsets := offsets |})
          end
      end
  end.

(** The calls [update(f)] for the frames [f] in order, up to the first
    that raises. *)
Fixpoint animate (frames : list Z) (p : Plot) : Outcome * Plot :=
  match frames with
  | [] => (Returned, p)
  | f :: rest =>
      match update f p with
      | (Returned, p') => animate rest p'
      | (Raised e, p') => (Raised e, p')
      end
  end.

(** [real_time_plot()], one pass of the animation: the set-up, [init()],
    then [update] on each frame of [range(1000)]. *)
Definition real_time_plot `{Numpy} (g : rng) : Result (Outcome * Plot) :=
  match setup (data_stream_simulation g) with
  | Ok p => Ok (animate (seqZ 0 1000) (init p))
  | Raise e => Raise e
  end.

(** The points, among frames and values, at which the answer is [true]. *)
Fixpoint flagged (frames : list Z) (values : list float) (answers : list bool)
  : list (Z * float) :=
  match frames, values, answers with
  | f :: fs, v :: vs, b :: bs =>
      if b then (f, v) :: flagged fs vs bs else flagged fs vs bs
  | _, _, _ => []
  end.

(** The two anomaly lists have one entry per recorded anomaly. *)
Definition aligned (p : Plot) : Prop :=
  length (anomalies_x p) = length (anomalies_y p).

(** The artists show the lists as they are now. *)
Definition synced (p : Plot) : Prop :=
  line_data p = (x_data p, y_data p) /\
  scatter_offsets p = zip (map float_of_int (anomalies_x p)) (anomalies_y p).

(** A deterministic stand-in for numpy, to run the model on: the sine is
    flat, the noise is zero, and one draw in a hundred (the 61st, the
    161st, ...) injects an anomaly of [15.0]. *)
#[local] Instance flat_numpy : Numpy := {|
  rng := Z;
  np_sin := fun _ => 0.0%float;
  random_normal := fun _ _ g => (0.0%float, g);
  random_rand := fun g => (if g mod 100 =? 60 then 0.0%float else 1.0%float, g + 1);
  random_uniform := fun _ _ g => (15.0%float, g)
|}.

(** * Properties *)

(** ** Closed form of [detect] *)

Lemma detect_eq (x : float) (self : Detector) :
  detect x self = Ok (verdict x (push x self), push x self).
Proof.
  unfold detect, bind, window_append, get_self, verdict, ret.
  destruct (Deque.len _ <? _); [reflexivity|].
  destruct (PrimFloat.eqb _ _); reflexivity.
Qed.

Lemma detect_all_eq (samples : list float) (self : Detector) :
  detect_all samples self = Ok (verdicts samples self, push_all samples self).
Proof.
  revert self; induction samples as [|x rest IH]; intros self; [reflexivity|].
  cbn [detect_all verdicts]. unfold bind at 1. rewrite detect_eq.
  unfold bind at 1. rewrite IH. reflexivity.
Qed.

Lemma push_all_app (l1 l2 : list float) (self : Detector) :
  push_all (l1 ++ l2) self = push_all l2 (push_all l1 self).
Proof. apply fold_left_app. Qed.

Lemma length_verdicts (l : list float) (self : Detector) :
  length (verdicts l self) = length l.
Proof.
  revert self; induction l as [|x l IH]; intros self; cbn; [|rewrite IH]; reflexivity.
Qed.

Lemma verdicts_lookup (l : list float) (self : Detector) (i : nat) :
  verdicts l self !! i
  = (fun x => verdict x (push_all (take (S i) l) self)) <$> (l !! i).
Proof.
  revert self i; induction l as [|x l IH]; intros self i; [reflexivity|].
  destruct i as [|i]; [reflexivity|].
  cbn [verdicts]. rewrite !lookup_cons. cbn [Nat.pred]. rewrite IH. reflexivity.
Qed.

(** ** Construction *)

Lemma new_ok (W : Z) (t : float) :
  0 <= W -> W < 2 ^ 63 ->
  new W t = Ok (mkDetector W t (Deque.mk W [])).
Proof.
  intros HW Hmax. unfold new, Deque.create, Deque.PY_SSIZE_T_MAX.
  repeat match goal with
         | |- context [?a <? ?b] => destruct (Z.ltb_spec a b)
         end; cbn [orb]; try lia; reflexivity.
Qed.

(** C2, as the code has it: the constructor checks nothing itself; the
    only failures are those of [deque(maxlen=window_size)], a
    [ValueError] for a negative window size and an [OverflowError] for one
    that is not a machine integer.  Every window size from [0] up to
    [2^63 - 1], zero included, and every threshold are accepted. *)
Theorem new_checks_only_negative_maxlen (W : Z) (t : float) :
  new W t
  = if W <? - 2 ^ 63 then
      Raise (OverflowError "Python int too large to convert to C ssize_t")
    else if W <? 0 then Raise (ValueError "maxlen must be non-negative")
    else if W <? 2 ^ 63 then Ok (mkDetector W t (Deque.mk W []))
    else Raise (OverflowError "Python int too large to convert to C ssize_t").
Proof.
  unfold new, Deque.create, Deque.PY_SSIZE_T_MAX.
  repeat match goal with
         | |- context [?a <? ?b] => destruct (Z.ltb_spec a b)
         end; cbn [orb]; try lia; reflexivity.
Qed.

(** C2 does not hold as stated: [new(0, 3.0)] and [new(5, 0.0)] both
    succeed. *)
Lemma new_accepts_zero_window_and_zero_threshold :
  new 0 3.0%float = Ok (mkDetector 0 3.0%float (Deque.mk 0 [])) /\
  new 5 0.0%float = Ok (mkDetector 5 0.0%float (Deque.mk 5 [])).
Proof. split; reflexivity. Qed.

Example new_5_3_succeeds :
  new 5 3.0%float = Ok (mkDetector 5 3.0%float (Deque.mk 5 [])).
Proof. reflexivity. Qed.

Example new_failures :
  new (-1) 3.0%float = Raise (ValueError "maxlen must be non-negative") /\
  new (2 ^ 63) 3.0%float
  = Raise (OverflowError "Python int too large to convert to C ssize_t") /\
  new (2 ^ 63 - 1) 3.0%float
  = Ok (mkDetector (2 ^ 63 - 1) 3.0%float (Deque.mk (2 ^ 63 - 1) [])).
Proof. repeat split; reflexivity. Qed.

(** ** The window holds the most recent samples *)

Lemma length_last_n (n : nat) (l : list float) :
  length (last_n n l) = Nat.min n (length l).
Proof. unfold last_n. rewrite length_drop. lia. Qed.

Lemma append_last_n (W : Z) (l : list float) (x : float) :
  0 <= W ->
  Deque.items (Deque.append (Deque.mk W (last_n (Z.to_nat W) l)) x)
  = last_n (Z.to_nat W) (l ++ [x]).
Proof.
  intros HW. unfold Deque.append; cbn [Deque.items Deque.maxlen].
  rewrite length_app, length_last_n. cbn [length].
  unfold last_n. rewrite length_app. cbn [length].
  destruct (Z.ltb_spec W (Z.of_nat (Nat.min (Z.to_nat W) (length l) + 1))) as [Hlt|Hge].
  - assert (Hle : (Z.to_nat W <= length l)%nat) by lia.
    replace (length l + 1 - Z.to_nat W)%nat
      with ((length l - Z.to_nat W) + 1)%nat by lia.
    rewrite <- drop_drop, (drop_app_le l [x]) by lia.
    destruct (drop (length l - Z.to_nat W) l ++ [x]); reflexivity.
  - replace (length l + 1 - Z.to_nat W)%nat with 0%nat by lia.
    replace (length l - Z.to_nat W)%nat with 0%nat by lia.
    reflexivity.
Qed.

Lemma window_push_all (W : Z) (t : float) (l : list float) :
  0 <= W ->
  push_all l (mkDetector W t (Deque.mk W []))
  = mkDetector W t (Deque.mk W (last_n (Z.to_nat W) l)).
Proof.
  intros HW. induction l as [|x l IH] using rev_ind; [reflexivity|].
  rewrite push_all_app, IH. cbn [push_all fold_left].
  unfold push; cbn [window_size threshold data_window].
  f_equal.
  pose proof (append_last_n W l x HW) as H.
  unfold Deque.append in *. cbn [Deque.items Deque.maxlen] in *.
  f_equal. exact H.
Qed.

Lemma run_eq (W : Z) (t : float) (samples : list float) :
  0 <= W -> W < 2 ^ 63 ->
  run W t samples
  = Ok (verdicts samples (mkDetector W t (Deque.mk W [])),
        mkDetector W t (Deque.mk W (last_n (Z.to_nat W) samples))).
Proof.
  intros HW Hmax. unfold run. rewrite new_ok by assumption.
  rewrite detect_all_eq, window_push_all by assumption. reflexivity.
Qed.

(** ** Bounded FIFO window *)

(** C5: every call of [detect] appends its sample, whatever it returns,
    and evicts exactly the oldest element when the window was full; so
    after the calls [samples] the window is the suffix of [samples] of
    length [min (length samples) W], oldest first, and it has exactly [W]
    elements once [W] or more calls were made. *)
Theorem window_holds_latest_samples (W : Z) (t : float) (samples : list float) :
  1 <= W -> W < 2 ^ 63 ->
  exists bs d,
    run W t samples = Ok (bs, d) /\
    (exists older, samples = older ++ Deque.items (data_window d)) /\
    length (Deque.items (data_window d))
      = Nat.min (length samples) (Z.to_nat W) /\
    (W <= Z.of_nat (length samples) -> Deque.len (data_window d) = W) /\
    forall x : float, exists b d',
      detect x d = Ok (b, d') /\
      Deque.items (data_window d')
      = (if Deque.len (data_window d) =? W
         then tl (Deque.items (data_window d))
         else Deque.items (data_window d)) ++ [x].
Proof.
  intros HW Hmax. rewrite run_eq by lia.
  eexists _, _. split; [reflexivity|].
  cbn [data_window Deque.items]. unfold Deque.len. cbn [Deque.items].
  rewrite length_last_n.
  split; [|split; [|split]].
  - exists (take (length samples - Z.to_nat W) samples).
    unfold last_n. symmetry. apply take_drop.
  - lia.
  - lia.
  - intros x. rewrite detect_eq. eexists _, _. split; [reflexivity|].
    unfold push, Deque.append; cbn [data_window Deque.items Deque.maxlen].
    rewrite length_app, length_last_n. cbn [length].
    destruct (Z.ltb_spec W (Z.of_nat (Nat.min (Z.to_nat W) (length samples) + 1)));
      destruct (Z.eqb_spec (Z.of_nat (Nat.min (Z.to_nat W) (length samples))) W);
      try lia; [|reflexivity].
    destruct (last_n (Z.to_nat W) samples) as [|y r] eqn:E; [|reflexivity].
    apply (f_equal length) in E. rewrite length_last_n in E. cbn in E. lia.
Qed.

Lemma window_holds_latest_samples_witness :
  1 <= 3 /\
  exists bs d,
    run 3 3.0%float [1.0; 2.0; 3.0; 4.0; 5.0]%float = Ok (bs, d) /\
    Deque.items (data_window d) = [3.0; 4.0; 5.0]%float.
Proof.
  split; [lia|].
  destruct (window_holds_latest_samples 3 3.0%float [1.0; 2.0; 3.0; 4.0; 5.0]%float)
    as (bs & d & Hrun & _); [lia|lia|].
  exists bs, d. split; [exact Hrun|].
  revert Hrun. vm_compute. intros [= <- <-]. reflexivity.
Defined.

(** ** Warm-up *)

(** C4: on a fresh detector of window size [W], each of the first [W - 1]
    calls of [detect] returns [false], whatever the samples are. *)
Theorem warm_up_returns_false (W : Z) (t : float) (samples : list float) :
  0 <= W -> W < 2 ^ 63 ->
  exists bs d,
    run W t samples = Ok (bs, d) /\
    length bs = length samples /\
    forall (i : nat) (b : bool),
      bs !! i = Some b -> Z.of_nat i < W - 1 -> b = false.
Proof.
  intros HW Hmax. rewrite run_eq by assumption.
  eexists _, _. split; [reflexivity|]. split; [apply length_verdicts|].
  intros i b Hi Hlt. rewrite verdicts_lookup in Hi.
  destruct (samples !! i) as [x|] eqn:Hx; [|discriminate].
  cbn in Hi. injection Hi as <-.
  apply lookup_lt_Some in Hx.
  rewrite window_push_all by assumption.
  unfold verdict, Deque.len; cbn [data_window Deque.items window_size].
  rewrite length_last_n, length_take.
  destruct (Z.ltb_spec (Z.of_nat (Nat.min (Z.to_nat W) (Nat.min (S i) (length samples)))) W);
    [reflexivity|lia].
Qed.

Lemma warm_up_returns_false_witness :
  0 <= 5 /\
  exists bs d,
    run 5 3.0%float [10.0; 0.0; 1000.0; 1.0]%float = Ok (bs, d) /\
    length bs = 4%nat /\
    forall (i : nat) (b : bool),
      bs !! i = Some b -> Z.of_nat i < 5 - 1 -> b = false.
Proof.
  split; [lia|].
  apply (warm_up_returns_false 5 3.0%float [10.0; 0.0; 1000.0; 1.0]%float); lia.
Defined.

(** ** The cases of [tests/test_anomaly_detector.py] *)

(** [test_no_anomalies_in_constant_stream] passes. *)
Example test_no_anomalies_in_constant_stream :
  outputs (run 5 3.0%float (ones 10)) = Some (replicate 10 false).
Proof. vm_compute. reflexivity. Qed.

(** [test_handles_division_by_zero] passes. *)
Example test_handles_division_by_zero :
  outputs (run 5 3.0%float (ones 5 ++ [1.0%float]))
  = Some (replicate 5 false ++ [false]).
Proof. vm_compute. reflexivity. Qed.

(** C1: [test_detects_anomaly_in_spike] expects [True] from the sixth
    call; the code answers [False].  The spike is itself part of the
    window [1, 1, 1, 1, 10] it is judged against: the mean is [2.8], the
    population standard deviation [3.6], the z-score [2.0], which does not
    exceed the threshold [3.0]. *)
Theorem spike_is_not_flagged :
  outputs (run 5 3.0%float (ones 5 ++ [10.0%float]))
  = Some (replicate 5 false ++ [false]) /\
  window_of (run 5 3.0%float (ones 5 ++ [10.0%float]))
  = Some [1.0; 1.0; 1.0; 1.0; 10.0]%float /\
  PrimFloat.div
    (PrimFloat.sub 10.0%float (Np.mean [1.0; 1.0; 1.0; 1.0; 10.0]%float))
    (Np.std [1.0; 1.0; 1.0; 1.0; 10.0]%float) = 2.0%float.
Proof. repeat split; vm_compute; reflexivity. Qed.

(** ** Totality *)

(** C9: [detect] never raises: for every detector state and every binary64
    sample, [nan] and the infinities included, the call returns a boolean;
    so does every stream of calls. *)
Theorem detect_never_raises (self : Detector) :
  (forall x : float, exists b self', detect x self = Ok (b, self')) /\
  (forall samples : list float, exists bs self',
      detect_all samples self = Ok (bs, self') /\
      length bs = length samples).
Proof.
  split.
  - intros x. rewrite detect_eq. eexists _, _. reflexivity.
  - intros samples. rewrite detect_all_eq. eexists _, _.
    split; [reflexivity|apply length_verdicts].
Qed.

Example detect_non_finite :
  outputs (run 3 3.0%float [1.0; nan; infinity; neg_infinity; 2.0; 2.0; 2.0; 2.5]%float)
  = Some [false; false; false; false; false; false; false; false].
Proof. vm_compute. reflexivity. Qed.

(** ** Zero variance *)

(** When the standard deviation of the full window is exactly zero the
    answer is [false], and the division is not evaluated. *)
Lemma zero_std_returns_false (self : Detector) (x : float) :
  PrimFloat.eqb (Np.std (Deque.items (data_window (push x self)))) PrimFloat.zero = true ->
  detect x self = Ok (false, push x self).
Proof.
  intros Hz. rewrite detect_eq. unfold verdict. rewrite Hz.
  destruct (_ <? _); reflexivity.
Qed.

(** C6: a constant stream is not always answered [false].  With
    [window_size = 3] and [threshold = 0.5] the constant stream of [0.1]
    is flagged from the third call on: the binary64 mean of
    [0.1, 0.1, 0.1] is [0.1 + 2^-56], not [0.1], so the standard deviation
    is [2^-56], not zero, the zero-variance guard is passed and the
    z-score is [-1.0]. *)
Theorem constant_stream_is_flagged :
  outputs (run 3 0.5%float [0.1; 0.1; 0.1; 0.1]%float)
  = Some [false; false; true; true] /\
  Np.mean [0.1; 0.1; 0.1]%float = 0.10000000000000002%float /\
  Np.std [0.1; 0.1; 0.1]%float = 0x1p-56%float /\
  PrimFloat.eqb (Np.std [0.1; 0.1; 0.1]%float) PrimFloat.zero = false /\
  PrimFloat.div
    (PrimFloat.sub 0.1%float (Np.mean [0.1; 0.1; 0.1]%float))
    (Np.std [0.1; 0.1; 0.1]%float) = (-1.0)%float.
Proof. repeat split; vm_compute; reflexivity. Qed.

(** ** The rule applied to a full window *)






(** ** Order on binary64 numbers *)

Section FloatOrder.

#[local] Ltac cmp_cases :=
  repeat match goal with
    | H : context [Z.compare ?a ?b] |- _ => destruct (Z.compare_spec a b)
    | |- context [Z.compare ?a ?b] => destruct (Z.compare_spec a b)
    | H : context [Pos.compare ?a ?b] |- _ => destruct (Pos.compare_spec a b)
    | |- context [Pos.compare ?a ?b] => destruct (Pos.compare_spec a b)
    end.

(** [t <= t'] and [t' < z] give [t < z]; no number is below, above or
    equal to [nan]. *)
Lemma SFleb_SFltb_trans (t t' z : spec_float) :
  SFleb t t' = true -> SFltb t' z = true -> SFltb t z = true.
Proof.
  unfold SFleb, SFltb, SFcompare.
  change (Pos.compare_cont Eq) with Pos.compare.
  destruct t as [[]|[]| |[] mt et], t' as [[]|[]| |[] mt' et'],
           z as [[]|[]| |[] mz ez];
    cbn; try discriminate; try reflexivity;
    intros H1 H2; cmp_cases; cbn in *;
    try discriminate; try reflexivity; subst; try lia.
Qed.

Lemma ltb_leb_trans (t t' z : float) :
  PrimFloat.leb t t' = true ->
  PrimFloat.ltb t' z = true ->
  PrimFloat.ltb t z = true.
Proof. rewrite leb_spec, !ltb_spec. apply SFleb_SFltb_trans. Qed.

End FloatOrder.

(** ** Threshold monotonicity *)

(** C7: the window history and the sample being the same, a sample that is
    answered [false] at threshold [t] is answered [false] at every
    threshold [t' >= t]; the window is left the same. *)
Theorem threshold_monotone
    (W : Z) (dq : Deque.deque) (t t' : float) (x : float) (self1 : Detector) :
  PrimFloat.leb t t' = true ->
  detect x (mkDetector W t dq) = Ok (false, self1) ->
  exists self2,
    detect x (mkDetector W t' dq) = Ok (false, self2) /\
    data_window self2 = data_window self1.
Proof.
  intros Hle. rewrite !detect_eq. intros [= Hv <-].
  exists (push x (mkDetector W t' dq)). split; [|reflexivity]. f_equal. f_equal.
  revert Hv. unfold verdict, push; cbn [data_window window_size threshold].
  destruct (_ <? _); [reflexivity|].
  destruct (PrimFloat.eqb _ _); [reflexivity|].
  intros Hv.
  destruct (PrimFloat.ltb t' _) eqn:E; [|reflexivity].
  rewrite (ltb_leb_trans _ _ _ Hle E) in Hv. discriminate.
Qed.

Lemma threshold_monotone_witness :
  exists self2,
    detect 4.0%float (mkDetector 2 1.5%float (Deque.mk 2 [1.0; 2.0]%float))
    = Ok (false, self2) /\
    Deque.items (data_window self2) = [2.0; 4.0]%float.
Proof.
  destruct (threshold_monotone 2 (Deque.mk 2 [1.0; 2.0]%float)
              1.0%float 1.5%float 4.0%float
              (mkDetector 2 1.0%float (Deque.mk 2 [2.0; 4.0]%float)))
    as (self2 & H1 & H2).
  - vm_compute. reflexivity.
  - vm_compute. reflexivity.
  - exists self2. split; [exact H1|]. rewrite H2. reflexivity.
Defined.

(** ** Exact binary64 facts: division by one, [x - x], sums from zero *)

Section Binary64.

Lemma Prim2SF_one : Prim2SF PrimFloat.one = SFone64.
Proof. reflexivity. Qed.

Lemma Prim2SF_zero : Prim2SF PrimFloat.zero = S754_zero false.
Proof. reflexivity. Qed.

Lemma div_eucl_div_mod (a b : Z) : Z.div_eucl a b = (a / b, a mod b).
Proof. unfold Z.div, Z.modulo. destruct (Z.div_eucl a b). reflexivity. Qed.

(** A mantissa already in canonical position is left alone by the
    rounding step. *)
Lemma binary_round_aux_canonical (s : bool) (m : positive) (e : Z) :
  bounded prec emax m e = true ->
  binary_round_aux prec emax s (Zpos m) e loc_Exact = S754_finite s m e.
Proof.
  unfold bounded, canonical_mantissa. intros [Hc He]%andb_prop.
  apply Z.eqb_eq in Hc.
  unfold binary_round_aux, shr_fexp. cbn [Zdigits2 shr_record_of_loc].
  rewrite Hc, Z.sub_diag. cbn [shr shr_m loc_of_shr_record round_nearest_even].
  cbn [Zdigits2 shr_record_of_loc]. rewrite Hc, Z.sub_diag.
  cbn [shr shr_m]. rewrite He. reflexivity.
Qed.

(** The same mantissa doubled, one exponent below, is shifted back by
    one bit without loss. *)
Lemma binary_round_aux_doubled (s : bool) (m : positive) (e : Z) :
  bounded prec emax m e = true ->
  binary_round_aux prec emax s (Zpos m~0) (e - 1) loc_Exact = S754_finite s m e.
Proof.
  unfold bounded, canonical_mantissa. intros [Hc He]%andb_prop.
  apply Z.eqb_eq in Hc.
  unfold binary_round_aux, shr_fexp at 1. cbn [Zdigits2 shr_record_of_loc digits2_pos].
  change (PosDef.Pos.succ (digits2_pos m)) with (Pos.succ (digits2_pos m)).
  replace (Z.pos (Pos.succ (digits2_pos m)) + (e - 1))
    with (Z.pos (digits2_pos m) + e) by lia.
  rewrite Hc. replace (e - (e - 1)) with 1 by lia.
  cbn [shr SpecFloat.iter_pos shr_1 orb shr_m loc_of_shr_record round_nearest_even].
  replace (e - 1 + 1) with e by lia.
  unfold shr_fexp. cbn [Zdigits2 shr_record_of_loc]. rewrite Hc, Z.sub_diag.
  cbn [shr shr_m]. rewrite He. reflexivity.
Qed.

Lemma fexp64 (k : Z) : fexp prec emax k = Z.max (k - 53) (-1074).
Proof. reflexivity. Qed.

Lemma bounded64 (m : positive) (e : Z) :
  bounded prec emax m e = true ->
  Z.max (Z.pos (digits2_pos m) + e - 53) (-1074) = e /\ e <= 971.
Proof.
  unfold bounded, canonical_mantissa. intros [Hc He]%andb_prop.
  apply Z.eqb_eq in Hc. apply Z.leb_le in He.
  rewrite fexp64 in Hc. change (emax - prec) with 971 in He. auto.
Qed.

(** The quotient of a binary64 mantissa by the mantissa of [1.0]: the
    mantissa itself at the least exponent, the mantissa doubled one
    exponent below otherwise; the remainder is zero. *)
Lemma SFdiv_core_binary_one (m : positive) (e : Z) :
  bounded prec emax m e = true ->
  SFdiv_core_binary prec emax (Z.pos m) e 4503599627370496 (-52)
  = if e =? -1074 then (Z.pos m, e, loc_Exact)
    else (Z.pos m~0, e - 1, loc_Exact).
Proof.
  intros [Hc He]%bounded64.
  assert (Hd : 0 < Z.pos (digits2_pos m)) by lia.
  unfold SFdiv_core_binary.
  change (Zdigits2 (Z.pos m)) with (Z.pos (digits2_pos m)).
  change (Zdigits2 4503599627370496) with 53.
  rewrite fexp64.
  destruct (Z.eqb_spec e (-1074)) as [->|Hne].
  - replace (Z.min _ _) with (-1074) by lia.
    change (-1074 - -52 - -1074) with 52.
    cbv beta iota zeta. rewrite div_eucl_div_mod, Z.shiftl_mul_pow2 by lia.
    change (2 ^ 52) with 4503599627370496.
    rewrite Z.div_mul, Z.mod_mul by lia. reflexivity.
  - replace (Z.min _ _) with (e - 1) by lia.
    replace (e - -52 - (e - 1)) with 53 by lia.
    cbv beta iota zeta. rewrite div_eucl_div_mod, Z.shiftl_mul_pow2 by lia.
    change (2 ^ 53) with (2 * 4503599627370496).
    rewrite Z.mul_assoc, Z.div_mul, Z.mod_mul by lia.
    replace (Z.pos m * 2) with (Z.pos m~0) by lia. reflexivity.
Qed.

(** Dividing a binary64 number by [1.0] is exact. *)
Lemma SFdiv_one_finite (s : bool) (m : positive) (e : Z) :
  bounded prec emax m e = true ->
  SFdiv prec emax (S754_finite s m e) SFone64 = S754_finite s m e.
Proof.
  intros Hb. unfold SFdiv, SFone64.
  rewrite SFdiv_core_binary_one, xorb_false_r by exact Hb.
  destruct (e =? -1074).
  - apply binary_round_aux_canonical. exact Hb.
  - apply binary_round_aux_doubled. exact Hb.
Qed.

Lemma div_one (x : float) : PrimFloat.div x PrimFloat.one = x.
Proof.
  apply Prim2SF_inj. rewrite div_spec, Prim2SF_one.
  pose proof (Prim2SF_valid x) as Hv.
  destruct (Prim2SF x) as [[]|[]| |s m e]; try reflexivity.
  apply SFdiv_one_finite. exact Hv.
Qed.

Lemma SFsub_diag_finite (s : bool) (m : positive) (e : Z) :
  SFsub prec emax (S754_finite s m e) (S754_finite s m e) = S754_zero false.
Proof.
  unfold SFsub, shl_align. rewrite Z.min_id, Z.sub_diag. cbn [fst].
  reflexivity.
Qed.

Lemma is_finite_spec (x : float) :
  PrimFloat.is_finite x = SFis_finite (Prim2SF x).
Proof.
  unfold PrimFloat.is_finite, PrimFloat.is_nan, PrimFloat.is_infinity.
  rewrite !FloatAxioms.eqb_spec, abs_spec.
  change (Prim2SF infinity) with (S754_infinity false).
  destruct (Prim2SF x) as [[]|[]| |s m e]; try reflexivity.
  unfold SFeqb, SFabs, SFcompare.
  change (Pos.compare_cont Eq m m) with (Pos.compare m m).
  rewrite Z.compare_refl, Pos.compare_refl. destruct s; reflexivity.
Qed.

Lemma sum_singleton (y : float) :
  Np.sum [y] = PrimFloat.add PrimFloat.zero (PrimFloat.add PrimFloat.zero y).
Proof. reflexivity. Qed.

(** The standard deviation of a one-element window: zero for a finite
    sample, [nan] for [nan] and the infinities. *)
Lemma std_singleton (x : float) :
  Prim2SF (Np.std [x])
  = if SFis_finite (Prim2SF x) then S754_zero false else S754_nan.
Proof.
  unfold Np.std, Np.var, Np.mean. cbn [map].
  change (Np.of_len [x]) with PrimFloat.one.
  rewrite !sum_singleton, !div_one.
  rewrite sqrt_spec, !add_spec, mul_spec, sub_spec, !add_spec, Prim2SF_zero.
  unfold SF64sqrt, SF64add, SF64mul, SF64sub.
  destruct (Prim2SF x) as [[]|[]| |s m e]; try reflexivity.
  cbn [SFadd]. rewrite SFsub_diag_finite. reflexivity.
Qed.

Lemma std_singleton_zero_iff_finite (x : float) :
  PrimFloat.eqb (Np.std [x]) PrimFloat.zero = PrimFloat.is_finite x.
Proof.
  rewrite FloatAxioms.eqb_spec, std_singleton, is_finite_spec, Prim2SF_zero.
  destruct (SFis_finite (Prim2SF x)); reflexivity.
Qed.

Lemma ltb_nan_r (t z : float) :
  Prim2SF z = S754_nan -> PrimFloat.ltb t z = false.
Proof.
  intros Hz. rewrite ltb_spec, Hz. unfold SFltb, SFcompare.
  destruct (Prim2SF t); reflexivity.
Qed.

Lemma abs_div_nan_r (a s : float) :
  Prim2SF s = S754_nan ->
  Prim2SF (PrimFloat.abs (PrimFloat.div a s)) = S754_nan.
Proof.
  intros Hs. rewrite abs_spec, div_spec, Hs. unfold SF64div, SFdiv.
  destruct (Prim2SF a); reflexivity.
Qed.

End Binary64.

(** ** A window of one element *)

Lemma verdict_window_of_one (t x : float) :
  verdict x (mkDetector 1 t (Deque.mk 1 [x])) = false.
Proof.
  unfold verdict, Deque.len; cbn [data_window Deque.items window_size threshold length].
  change (Z.of_nat 1 <? 1) with false. cbv iota.
  rewrite std_singleton_zero_iff_finite.
  destruct (PrimFloat.is_finite x) eqn:Hfin; [reflexivity|].
  apply ltb_nan_r, abs_div_nan_r.
  rewrite std_singleton, <- is_finite_spec, Hfin. reflexivity.
Qed.

Lemma last_n_1_take (l : list float) (i : nat) (x : float) :
  l !! i = Some x -> last_n 1 (take (S i) l) = [x].
Proof.
  intros Hx. rewrite (take_S_r l i x Hx). unfold last_n.
  rewrite length_app. cbn [length].
  replace (length (take i l) + 1 - 1)%nat with (length (take i l)) by lia.
  apply drop_app_length.
Qed.

(** C10: with [window_size = 1] every call of [detect] returns [false],
    for every threshold and every sample.  The window is the sample alone:
    for a finite sample its standard deviation is exactly zero and the
    zero-variance branch is taken; for [nan] and the infinities it is [nan]
    and the comparison with the threshold is false. *)
Theorem window_of_one_never_flags (t : float) (samples : list float) :
  (exists d, run 1 t samples = Ok (replicate (length samples) false, d)) /\
  (forall x : float,
      PrimFloat.eqb (Np.std [x]) PrimFloat.zero = PrimFloat.is_finite x).
Proof.
  split; [|exact std_singleton_zero_iff_finite].
  rewrite run_eq by lia. eexists. f_equal. f_equal.
  apply list_eq. intros i. rewrite verdicts_lookup.
  destruct (samples !! i) as [x|] eqn:Hx; cbn [fmap option_fmap option_map].
  - rewrite window_push_all by lia. change (Z.to_nat 1) with 1%nat.
    rewrite (last_n_1_take _ _ _ Hx), verdict_window_of_one.
    symmetry. apply lookup_lt_Some in Hx.
    apply lookup_replicate_2. exact Hx.
  - symmetry. apply lookup_replicate_None.
    apply lookup_ge_None in Hx. exact Hx.
Qed.

(** ** Detectors share no state *)

Lemma exec_at_ref (calls : list (positive * float)) (h : gmap positive Detector) :
  Forall (fun c => is_Some (h !! c.1)) calls ->
  exists outs h',
    exec calls h = Ok (outs, h') /\
    forall r self, h !! r = Some self ->
      at_ref r outs = verdicts (at_ref r calls) self /\
      h' !! r = Some (push_all (at_ref r calls) self).
Proof.
  revert h; induction calls as [|[r0 x] rest IH]; intros h Hall.
  - exists [], h. split; [reflexivity|]. intros r self Hr. split; [reflexivity|exact Hr].
  - apply Forall_cons in Hall as [[self0 H0] Hrest]. cbn [fst] in H0.
    cbn [exec]. unfold call_detect. rewrite H0, detect_eq.
    destruct (IH (<[r0 := push x self0]> h)) as (outs & h' & Hex & Hat).
    { eapply Forall_impl; [exact Hrest|]. intros [r1 x1] Hs. cbn [fst] in *.
      destruct (decide (r0 = r1)) as [->|Hne].
      - rewrite lookup_insert_eq. eauto.
      - rewrite lookup_insert_ne by exact Hne. exact Hs. }
    rewrite Hex. eexists _, _. split; [reflexivity|].
    intros r self Hr. cbn [at_ref].
    destruct (Pos.eqb_spec r0 r) as [->|Hne].
    + assert (self = self0) as -> by congruence.
      destruct (Hat r (push x self0)) as [Ho Hh]; [apply lookup_insert_eq|].
      cbn [verdicts push_all fold_left]. rewrite Ho. split; [reflexivity|exact Hh].
    + apply Hat. rewrite lookup_insert_ne by exact Hne. exact Hr.
Qed.

(** C8: two detectors freshly constructed with the same configuration and
    fed the same samples, in whatever order their calls are interleaved
    with each other and with calls on other detectors, give the same
    sequence of outputs: the one a single detector of that configuration
    gives on these samples. *)
Theorem determinism
    (W : Z) (t : float) (h0 h1 h2 : gmap positive Detector) (a b : positive)
    (calls : list (positive * float)) :
  alloc W t h0 = Ok (a, h1) ->
  alloc W t h1 = Ok (b, h2) ->
  Forall (fun c => is_Some (h2 !! c.1)) calls ->
  at_ref a calls = at_ref b calls ->
  exists outs h',
    exec calls h2 = Ok (outs, h') /\
    at_ref a outs = at_ref b outs /\
    outputs (run W t (at_ref a calls)) = Some (at_ref a outs).
Proof.
  unfold alloc. intros Ha Hb Hall Hsame.
  destruct (new W t) as [d|e] eqn:Hnew; [|discriminate].
  injection Ha as <- <-. injection Hb as <- <-.
  set (a := fresh (dom h0)) in *.
  set (b := fresh (dom (<[a := d]> h0))) in *.
  assert (Hne : a <> b).
  { intros Heq. apply (is_fresh (dom (<[a := d]> h0))). fold b. rewrite <- Heq.
    rewrite dom_insert_L. set_solver. }
  destruct (exec_at_ref calls _ Hall) as (outs & h' & Hex & Hat).
  exists outs, h'. split; [exact Hex|].
  destruct (Hat b d) as [Hob _]; [apply lookup_insert_eq|].
  destruct (Hat a d) as [Hoa _].
  { rewrite lookup_insert_ne by auto. apply lookup_insert_eq. }
  split; [rewrite Hoa, Hob, Hsame; reflexivity|].
  unfold run. rewrite Hnew, detect_all_eq, Hoa. reflexivity.
Qed.

Lemma determinism_witness :
  let d := mkDetector 2 1.0%float (Deque.mk 2 []) in
  let a := fresh (dom (∅ : gmap positive Detector)) in
  let h1 : gmap positive Detector := <[a := d]> ∅ in
  let b := fresh (dom h1) in
  let h2 : gmap positive Detector := <[b := d]> h1 in
  let calls := [(a, 1.0); (b, 1.0); (b, 5.0); (a, 5.0); (a, 2.0); (b, 2.0)]%float in
  exists outs h',
    exec calls h2 = Ok (outs, h') /\
    at_ref a outs = at_ref b outs.
Proof.
  intros d a h1 b h2 calls.
  destruct (determinism 2 1.0%float ∅ h1 h2 a b calls)
    as (outs & h' & Hex & Hsame & _).
  - reflexivity.
  - reflexivity.
  - repeat constructor; eexists; vm_compute; reflexivity.
  - vm_compute. reflexivity.
  - exists outs, h'. split; assumption.
Defined.

(** * Further properties of the detector *)

(** ** Non-finite samples blind the detector *)

Section NonFinite.

Lemma SFadd_nonfinite_l (x y : spec_float) :
  SFis_finite x = false -> SFis_finite (SFadd prec emax x y) = false.
Proof. destruct x as [?|[]| |]; try discriminate; destruct y as [?|[]| |]; reflexivity. Qed.

Lemma SFadd_nonfinite_r (x y : spec_float) :
  SFis_finite y = false -> SFis_finite (SFadd prec emax x y) = false.
Proof. destruct y as [?|[]| |]; try discriminate; destruct x as [?|[]| |]; reflexivity. Qed.

Lemma SFsub_nonfinite_r (x y : spec_float) :
  SFis_finite y = false -> SFis_finite (SFsub prec emax x y) = false.
Proof. destruct y as [?|[]| |]; try discriminate; destruct x as [?|[]| |]; reflexivity. Qed.

Lemma SFmul_nonfinite (x : spec_float) :
  SFis_finite x = false -> SFis_finite (SFmul prec emax x x) = false.
Proof. destruct x as [?|[]| |]; try discriminate; reflexivity. Qed.

Lemma SFdiv_nonfinite_l (x y : spec_float) :
  SFis_finite x = false -> SFis_finite (SFdiv prec emax x y) = false.
Proof. destruct x as [?|[]| |]; try discriminate; destruct y as [?|[]| |]; reflexivity. Qed.

Lemma SFdiv_nonfinite_nan (x y : spec_float) :
  SFis_finite x = false -> SFis_finite y = false -> SFdiv prec emax x y = S754_nan.
Proof. destruct x as [?|[]| |]; try discriminate; destruct y as [?|[]| |]; try discriminate; reflexivity. Qed.

Lemma SFsqrt_nonfinite (x : spec_float) :
  SFis_finite x = false -> SFis_finite (SFsqrt prec emax x) = false.
Proof. destruct x as [?|[]| |]; try discriminate; reflexivity. Qed.

Lemma SFeqb_nonfinite_zero (x : spec_float) :
  SFis_finite x = false -> SFeqb x (S754_zero false) = false.
Proof. destruct x as [?|[]| |]; try discriminate; reflexivity. Qed.

End NonFinite.

(** ** Sums in numpy's order *)

Lemma split_point_bounds (n : nat) :
  (129 <= n)%nat -> (0 < n / 2 - (n / 2) mod 8 < n)%nat.
Proof.
  intros Hn.
  pose proof (Nat.div_mod_eq n 2) as Hq.
  pose proof (Nat.mod_upper_bound n 2 ltac:(lia)) as Hr.
  pose proof (Nat.mod_upper_bound (n / 2) 8 ltac:(lia)) as Hr8.
  lia.
Qed.

Lemma pairwise_sum_rec_eq (fuel : nat) (a : list float) :
  Np.pairwise_sum_rec fuel a
  = if (length a <? 8)%nat then Np.sum_sequential PrimFloat.zero a
    else if (length a <=? Np.PW_BLOCKSIZE)%nat then Np.sum_block a
    else
      match fuel with
      | O => Np.sum_block a
      | S fuel =>
          PrimFloat.add
            (Np.pairwise_sum_rec fuel
               (take (length a / 2 - (length a / 2) mod 8) a))
            (Np.pairwise_sum_rec fuel
               (drop (length a / 2 - (length a / 2) mod 8) a))
      end.
Proof. destruct fuel; reflexivity. Qed.

(** The recursion of the pairwise sum ends before its fuel does: any
    fuel not below the length gives the same sum. *)
Lemma pairwise_sum_rec_fuel (fuel : nat) (a : list float) :
  (length a <= fuel)%nat ->
  Np.pairwise_sum_rec fuel a = Np.pairwise_sum a.
Proof.
  unfold Np.pairwise_sum.
  enough (H : forall f1 f2 (l : list float),
             (length l <= f1)%nat -> (length l <= f2)%nat ->
             Np.pairwise_sum_rec f1 l = Np.pairwise_sum_rec f2 l)
    by (intros Hf; apply H; lia).
  induction f1 as [|f1 IH]; intros f2 l H1 H2; rewrite !(pairwise_sum_rec_eq _ l).
  - destruct l; [reflexivity|cbn in H1; lia].
  - destruct (Nat.ltb_spec (length l) 8); [reflexivity|].
    destruct (Nat.leb_spec (length l) Np.PW_BLOCKSIZE); [reflexivity|].
    unfold Np.PW_BLOCKSIZE in *.
    destruct f2 as [|f2]; [lia|].
    pose proof (split_point_bounds (length l) ltac:(lia)) as Hsplit.
    f_equal; apply IH; rewrite ?length_take, ?length_drop; lia.
Qed.

(** A property that one term of a sum forces on the sum, such as not
    being finite, is forced on numpy's sum by any element. *)
Section SumAbsorbing.

Variable Q : float -> Prop.
Hypothesis Q_add_l : forall x y, Q x -> Q (PrimFloat.add x y).
Hypothesis Q_add_r : forall x y, Q y -> Q (PrimFloat.add x y).

#[local] Ltac absorb :=
  first [ assumption
        | apply Q_add_l; absorb
        | apply Q_add_r; absorb ].

#[local] Ltac pick :=
  first [ absorb | left; absorb | right; pick ].

#[local] Ltac cases_of H :=
  repeat match goal with
    | H : _ \/ _ |- _ => destruct H
    | H : Exists _ (_ :: _) |- _ => apply Exists_cons in H
    | H : Exists _ [] |- _ => apply Exists_nil in H; contradiction
    end.

Lemma sum_sequential_absorbs (from : float) (a : list float) :
  Q from \/ Exists Q a -> Q (Np.sum_sequential from a).
Proof.
  unfold Np.sum_sequential.
  revert from; induction a as [|y a IH]; intros from H; cbn [fold_left].
  - destruct H as [H|H]; [exact H|apply Exists_nil in H; contradiction].
  - apply IH. destruct H as [H|H]; [left; absorb|].
    apply Exists_cons in H as [H|H]; [left; absorb|right; exact H].
Qed.

Lemma sum_unrolled_absorbs (r0 r1 r2 r3 r4 r5 r6 r7 : float) (a : list float) :
  (Q r0 \/ Q r1 \/ Q r2 \/ Q r3 \/ Q r4 \/ Q r5 \/ Q r6 \/ Q r7) \/ Exists Q a ->
  Q (Np.sum_unrolled r0 r1 r2 r3 r4 r5 r6 r7 a).
Proof.
  remember (length a) as k eqn:Hk.
  assert (Hle : (length a <= k)%nat) by lia. clear Hk.
  revert r0 r1 r2 r3 r4 r5 r6 r7 a Hle.
  induction k as [|k IH]; intros r0 r1 r2 r3 r4 r5 r6 r7 a Hle H.
  - destruct a; [|cbn in Hle; lia]. cbn [Np.sum_unrolled].
    apply sum_sequential_absorbs. left. cases_of H; absorb.
  - destruct a as [|a0 [|a1 [|a2 [|a3 [|a4 [|a5 [|a6 [|a7 rest]]]]]]]];
      cbn [Np.sum_unrolled];
      try (apply sum_sequential_absorbs;
           destruct H as [H|H]; [left; cases_of H; absorb|right; exact H]).
    apply IH; [cbn [length] in Hle; lia|].
    cases_of H; first [right; assumption | left; pick].
Qed.

Lemma sum_block_absorbs (a : list float) :
  Exists Q a -> Q (Np.sum_block a).
Proof.
  intros H. unfold Np.sum_block.
  destruct a as [|a0 [|a1 [|a2 [|a3 [|a4 [|a5 [|a6 [|a7 rest]]]]]]]];
    try (apply sum_sequential_absorbs; right; exact H).
  apply sum_unrolled_absorbs. cases_of H; first [right; assumption | left; pick].
Qed.

Lemma pairwise_sum_rec_absorbs (fuel : nat) (a : list float) :
  Exists Q a -> Q (Np.pairwise_sum_rec fuel a).
Proof.
  revert a; induction fuel as [|fuel IH]; intros a H; rewrite pairwise_sum_rec_eq.
  - destruct (_ <? _)%nat; [apply sum_sequential_absorbs; right; exact H|].
    destruct (_ <=? _)%nat; apply sum_block_absorbs; exact H.
  - destruct (_ <? _)%nat; [apply sum_sequential_absorbs; right; exact H|].
    destruct (_ <=? _)%nat; [apply sum_block_absorbs; exact H|].
    rewrite <- (take_drop (length a / 2 - (length a / 2) mod 8) a) in H at 1.
    apply Exists_app in H as [H|H]; [apply Q_add_l|apply Q_add_r]; apply IH; exact H.
Qed.

Lemma sum_absorbs (a : list float) : Exists Q a -> Q (Np.sum a).
Proof. intros H. apply Q_add_r, pairwise_sum_rec_absorbs, H. Qed.

End SumAbsorbing.

(** A property that sums keep, such as being zero, is kept by numpy's sum
    of elements that all have it. *)
Section SumClosed.

Variable P : float -> Prop.
Hypothesis P_zero : P PrimFloat.zero.
Hypothesis P_add : forall x y, P x -> P y -> P (PrimFloat.add x y).

#[local] Ltac split_all :=
  repeat match goal with
    | H : Forall _ (_ :: _) |- _ => apply Forall_cons in H as [? H]
    end.

Lemma sum_sequential_keeps (from : float) (a : list float) :
  P from -> Forall P a -> P (Np.sum_sequential from a).
Proof.
  unfold Np.sum_sequential.
  revert from; induction a as [|y a IH]; intros from Hf H; cbn [fold_left]; [exact Hf|].
  apply Forall_cons in H as [Hy H]. apply IH; [apply P_add; assumption|exact H].
Qed.

Lemma sum_unrolled_keeps (r0 r1 r2 r3 r4 r5 r6 r7 : float) (a : list float) :
  P r0 -> P r1 -> P r2 -> P r3 -> P r4 -> P r5 -> P r6 -> P r7 ->
  Forall P a ->
  P (Np.sum_unrolled r0 r1 r2 r3 r4 r5 r6 r7 a).
Proof.
  remember (length a) as k eqn:Hk.
  assert (Hle : (length a <= k)%nat) by lia. clear Hk.
  revert r0 r1 r2 r3 r4 r5 r6 r7 a Hle.
  induction k as [|k IH]; intros r0 r1 r2 r3 r4 r5 r6 r7 a Hle H0 H1 H2 H3 H4 H5 H6 H7 H.
  - destruct a; [|cbn in Hle; lia]. cbn [Np.sum_unrolled].
    apply sum_sequential_keeps; [repeat apply P_add; assumption|exact H].
  - destruct a as [|a0 [|a1 [|a2 [|a3 [|a4 [|a5 [|a6 [|a7 rest]]]]]]]];
      cbn [Np.sum_unrolled];
      try (apply sum_sequential_keeps; [repeat apply P_add; assumption|exact H]).
    split_all. apply IH; try (apply P_add; assumption); [cbn [length] in Hle; lia|exact H].
Qed.

Lemma sum_block_keeps (a : list float) : Forall P a -> P (Np.sum_block a).
Proof.
  intros H. unfold Np.sum_block.
  destruct a as [|a0 [|a1 [|a2 [|a3 [|a4 [|a5 [|a6 [|a7 rest]]]]]]]];
    try (apply sum_sequential_keeps; [exact P_zero|exact H]).
  split_all. apply sum_unrolled_keeps; assumption.
Qed.

Lemma pairwise_sum_rec_keeps (fuel : nat) (a : list float) :
  Forall P a -> P (Np.pairwise_sum_rec fuel a).
Proof.
  revert a; induction fuel as [|fuel IH]; intros a H; rewrite pairwise_sum_rec_eq.
  - destruct (_ <? _)%nat; [apply sum_sequential_keeps; [exact P_zero|exact H]|].
    destruct (_ <=? _)%nat; apply sum_block_keeps; exact H.
  - destruct (_ <? _)%nat; [apply sum_sequential_keeps; [exact P_zero|exact H]|].
    destruct (_ <=? _)%nat; [apply sum_block_keeps; exact H|].
    apply P_add; apply IH; [apply Forall_take|apply Forall_drop]; exact H.
Qed.

Lemma sum_keeps (a : list float) : Forall P a -> P (Np.sum a).
Proof. intros H. apply P_add; [exact P_zero|]. apply pairwise_sum_rec_keeps, H. Qed.

End SumClosed.

Lemma add_nonfinite_l (x y : float) :
  PrimFloat.is_finite x = false -> PrimFloat.is_finite (PrimFloat.add x y) = false.
Proof.
  rewrite !is_finite_spec, add_spec. apply SFadd_nonfinite_l.
Qed.

Lemma add_nonfinite_r (x y : float) :
  PrimFloat.is_finite y = false -> PrimFloat.is_finite (PrimFloat.add x y) = false.
Proof.
  rewrite !is_finite_spec, add_spec. apply SFadd_nonfinite_r.
Qed.

Lemma sum_with_nonfinite (l : list float) (v : float) :
  In v l ->
  PrimFloat.is_finite v = false ->
  PrimFloat.is_finite (Np.sum l) = false.
Proof.
  intros Hin Hv.
  apply (sum_absorbs (fun x => PrimFloat.is_finite x = false)
           add_nonfinite_l add_nonfinite_r).
  apply Exists_exists. exists v. split; [apply list_elem_of_In; exact Hin|exact Hv].
Qed.

Lemma mean_with_nonfinite (w : list float) (v : float) :
  In v w ->
  PrimFloat.is_finite v = false ->
  PrimFloat.is_finite (Np.mean w) = false.
Proof.
  intros Hin Hv. unfold Np.mean.
  pose proof (sum_with_nonfinite w v Hin Hv) as Hs.
  rewrite is_finite_spec in *. rewrite div_spec. apply SFdiv_nonfinite_l. exact Hs.
Qed.

Lemma std_with_nonfinite_mean (w : list float) (v : float) :
  In v w ->
  PrimFloat.is_finite (Np.mean w) = false ->
  PrimFloat.is_finite (Np.std w) = false.
Proof.
  intros Hin Hm. unfold Np.std, Np.var.
  set (sq := fun x : float => PrimFloat.mul x x).
  set (dev := fun x : float => PrimFloat.sub x (Np.mean w)).
  assert (Hsum : PrimFloat.is_finite (Np.sum (map sq (map dev w))) = false).
  { apply (sum_with_nonfinite _ (sq (dev v))).
    - apply in_map, in_map, Hin.
    - unfold sq, dev. rewrite is_finite_spec in *. rewrite mul_spec.
      apply SFmul_nonfinite. rewrite sub_spec. apply SFsub_nonfinite_r. exact Hm. }
  rewrite is_finite_spec in *. rewrite sqrt_spec. apply SFsqrt_nonfinite.
  rewrite div_spec. apply SFdiv_nonfinite_l. exact Hsum.
Qed.

Lemma verdict_with_nonfinite (x v : float) (self : Detector) :
  In v (Deque.items (data_window self)) ->
  PrimFloat.is_finite v = false ->
  verdict x self = false.
Proof.
  intros Hin Hv. unfold verdict.
  destruct (_ <? _); [reflexivity|]. cbv zeta.
  pose proof (mean_with_nonfinite _ _ Hin Hv) as Hm.
  pose proof (std_with_nonfinite_mean _ _ Hin Hm) as Hs.
  rewrite is_finite_spec in Hm, Hs.
  rewrite FloatAxioms.eqb_spec, Prim2SF_zero, SFeqb_nonfinite_zero by exact Hs.
  apply ltb_nan_r. rewrite abs_spec, div_spec.
  unfold SF64div. rewrite SFdiv_nonfinite_nan; [reflexivity| |exact Hs].
  rewrite sub_spec. apply SFsub_nonfinite_r. exact Hm.
Qed.

(** X1: whenever the window, the new sample included, holds a [nan] or an
    infinity, [detect] answers [false]: the mean and the standard deviation
    are then not finite and the z-score is [nan]. *)
Theorem non_finite_in_window_never_flags (self : Detector) (x v : float) :
  In v (Deque.items (data_window (push x self))) ->
  PrimFloat.is_finite v = false ->
  detect x self = Ok (false, push x self).
Proof.
  intros Hin Hv. rewrite detect_eq.
  rewrite (verdict_with_nonfinite x v _ Hin Hv). reflexivity.
Qed.

Lemma non_finite_in_window_never_flags_witness :
  detect 1000.0%float (mkDetector 3 0.5%float (Deque.mk 3 [1.0; infinity; 1.0]%float))
  = Ok (false, mkDetector 3 0.5%float (Deque.mk 3 [infinity; 1.0; 1000.0]%float)).
Proof.
  apply (non_finite_in_window_never_flags
           (mkDetector 3 0.5%float (Deque.mk 3 [1.0; infinity; 1.0]%float))
           1000.0%float infinity).
  - vm_compute. left. reflexivity.
  - vm_compute. reflexivity.
Defined.

Lemma last_n_take_lookup (n : nat) (l : list float) (i j : nat) (v : float) :
  l !! i = Some v -> (i <= j)%nat -> (j < i + n)%nat -> (j < length l)%nat ->
  In v (last_n n (take (S j) l)).
Proof.
  intros Hi Hij Hjn Hj. apply list_elem_of_In.
  apply (list_elem_of_lookup_2 _ (i - (S j - n))%nat).
  unfold last_n. rewrite lookup_drop, length_take.
  replace (Nat.min (S j) (length l)) with (S j) by lia.
  replace (S j - n + (i - (S j - n)))%nat with i by lia.
  rewrite lookup_take_lt by lia. exact Hi.
Qed.

(** X2: a [nan] or infinite sample is answered [false], and so are the
    [W - 1] samples that follow it, whatever they are: the detector flags
    nothing while the sample is in the window. *)
Theorem non_finite_sample_blinds_window
    (W : Z) (t : float) (samples : list float) (i : nat) (v : float) :
  0 <= W -> W < 2 ^ 63 ->
  samples !! i = Some v ->
  PrimFloat.is_finite v = false ->
  exists bs d,
    run W t samples = Ok (bs, d) /\
    forall (j : nat) (b : bool),
      (i <= j)%nat -> Z.of_nat j < Z.of_nat i + W ->
      bs !! j = Some b -> b = false.
Proof.
  intros HW Hmax Hi Hv. rewrite run_eq by assumption.
  eexists _, _. split; [reflexivity|].
  intros j b Hij Hjw Hb. rewrite verdicts_lookup in Hb.
  destruct (samples !! j) as [x|] eqn:Hx; [|discriminate].
  cbn in Hb. injection Hb as <-.
  apply lookup_lt_Some in Hx.
  rewrite window_push_all by assumption.
  apply (verdict_with_nonfinite _ v); [|exact Hv].
  cbn [data_window Deque.items].
  apply (last_n_take_lookup _ _ i); [exact Hi|exact Hij|lia|exact Hx].
Qed.

Lemma non_finite_sample_blinds_window_witness :
  exists bs d,
    run 3 0.5%float [1.0; 2.0; nan; 50.0; 1.0; 3.0]%float = Ok (bs, d) /\
    bs !! 2%nat = Some false /\ bs !! 3%nat = Some false /\ bs !! 4%nat = Some false.
Proof.
  destruct (non_finite_sample_blinds_window 3 0.5%float
              [1.0; 2.0; nan; 50.0; 1.0; 3.0]%float 2 nan)
    as (bs & d & Hrun & Hfalse).
  - lia.
  - lia.
  - reflexivity.
  - vm_compute. reflexivity.
  - exists bs, d. split; [exact Hrun|].
    revert Hfalse. revert Hrun. vm_compute. intros [= <- <-] _.
    repeat split; reflexivity.
Defined.

(** ** A window of size zero *)

Lemma last_n_0 (l : list float) : last_n 0 l = [].
Proof. unfold last_n. apply drop_ge. lia. Qed.

Lemma verdict_empty_window (t x : float) :
  verdict x (mkDetector 0 t (Deque.mk 0 [])) = false.
Proof.
  unfold verdict, Deque.len; cbn [data_window Deque.items window_size threshold length].
  change (Z.of_nat 0 <? 0) with false. cbv iota zeta.
  change (PrimFloat.eqb (Np.std []) PrimFloat.zero) with false. cbv iota.
  apply ltb_nan_r, abs_div_nan_r. reflexivity.
Qed.

(** X3: [window_size = 0] is accepted at construction; the deque then
    keeps nothing, the statistics of the empty window are [nan], and every
    call answers [false] and leaves the window empty. *)
Theorem window_of_zero_never_flags (t : float) (samples : list float) :
  run 0 t samples
  = Ok (replicate (length samples) false, mkDetector 0 t (Deque.mk 0 [])).
Proof.
  rewrite run_eq by lia. change (Z.to_nat 0) with 0%nat. rewrite last_n_0.
  f_equal. f_equal.
  apply list_eq. intros i. rewrite verdicts_lookup.
  destruct (samples !! i) as [x|] eqn:Hx; cbn [fmap option_fmap option_map].
  - rewrite window_push_all by lia. change (Z.to_nat 0) with 0%nat.
    rewrite last_n_0, verdict_empty_window.
    symmetry. apply lookup_replicate_2. apply lookup_lt_Some in Hx. exact Hx.
  - symmetry. apply lookup_replicate_None.
    apply lookup_ge_None in Hx. exact Hx.
Qed.

(** ** Thresholds that disable the detector *)

Lemma ltb_nan_or_infinity_l (t z : float) :
  PrimFloat.is_nan t = true \/ t = infinity ->
  PrimFloat.ltb t z = false.
Proof.
  intros [Hn| ->]; rewrite ltb_spec.
  - unfold PrimFloat.is_nan in Hn. rewrite FloatAxioms.eqb_spec in Hn.
    destruct (Prim2SF t) as [?|[]| |[] m e] eqn:E; try reflexivity;
      try (cbn in Hn; discriminate).
    all: unfold SFeqb, SFcompare in Hn;
      change (Pos.compare_cont Eq m m) with (Pos.compare m m) in Hn;
      rewrite Z.compare_refl, Pos.compare_refl in Hn; discriminate.
  - change (Prim2SF infinity) with (S754_infinity false).
    destruct (Prim2SF z) as [?|[]| |]; reflexivity.
Qed.

(** X4: the constructor accepts any threshold; with a threshold that is
    [nan] or [+infinity] no sample is ever flagged, in any state of the
    window. *)
Theorem nan_or_infinite_threshold_never_flags
    (W : Z) (t : float) (dq : Deque.deque) (x : float) :
  PrimFloat.is_nan t = true \/ t = infinity ->
  detect x (mkDetector W t dq) = Ok (false, push x (mkDetector W t dq)).
Proof.
  intros Ht. rewrite detect_eq. f_equal. f_equal.
  unfold verdict. destruct (_ <? _); [reflexivity|]. cbv zeta.
  destruct (PrimFloat.eqb _ _); [reflexivity|].
  cbn [threshold push]. apply ltb_nan_or_infinity_l. exact Ht.
Qed.

Lemma nan_or_infinite_threshold_never_flags_witness :
  detect 1000.0%float (mkDetector 3 infinity (Deque.mk 3 [1.0; 2.0; 1.0]%float))
  = Ok (false, mkDetector 3 infinity (Deque.mk 3 [2.0; 1.0; 1000.0]%float)).
Proof.
  apply (nan_or_infinite_threshold_never_flags 3 infinity
           (Deque.mk 3 [1.0; 2.0; 1.0]%float) 1000.0%float).
  right. reflexivity.
Defined.

(** ** The answer depends on the last [W] samples only *)

Lemma verdicts_snoc (l : list float) (x : float) (self : Detector) :
  verdicts (l ++ [x]) self
  = verdicts l self ++ [verdict x (push_all (l ++ [x]) self)].
Proof.
  revert self; induction l as [|y l IH]; intros self; [reflexivity|].
  cbn [verdicts app]. rewrite IH. reflexivity.
Qed.

(** X5: two streams that end with the same [W] samples leave the detector
    in the same state and get the same answer to their last sample, however
    they differ before. *)
Theorem answer_depends_on_last_window
    (W : Z) (t : float) (l1 l2 : list float) (x : float) :
  0 <= W -> W < 2 ^ 63 ->
  last_n (Z.to_nat W) (l1 ++ [x]) = last_n (Z.to_nat W) (l2 ++ [x]) ->
  exists bs1 bs2 d,
    run W t (l1 ++ [x]) = Ok (bs1, d) /\
    run W t (l2 ++ [x]) = Ok (bs2, d) /\
    last bs1 = last bs2 /\ is_Some (last bs1).
Proof.
  intros HW Hmax Hlast. rewrite !run_eq by assumption. rewrite Hlast.
  eexists _, _, _. split; [reflexivity|]. split; [reflexivity|].
  rewrite !verdicts_snoc, !last_snoc, !window_push_all by assumption.
  rewrite Hlast. split; [reflexivity|eauto].
Qed.

Lemma answer_depends_on_last_window_witness :
  exists bs1 bs2 d,
    run 2 0.5%float ([100.0; 7.0; 1.0] ++ [3.0])%float = Ok (bs1, d) /\
    run 2 0.5%float ([1.0] ++ [3.0])%float = Ok (bs2, d) /\
    last bs1 = last bs2.
Proof.
  destruct (answer_depends_on_last_window 2 0.5%float
              [100.0; 7.0; 1.0]%float [1.0]%float 3.0%float)
    as (bs1 & bs2 & d & H1 & H2 & H3 & _).
  - lia.
  - lia.
  - reflexivity.
  - exists bs1, bs2, d. auto.
Defined.

(** ** Constant streams whose mean is computed exactly *)

Section ConstantWindow.

Lemma SFsub_eq_is_zero (a b : spec_float) :
  SFeqb a b = true -> SFis_finite b = true ->
  exists s, SFsub prec emax b a = S754_zero s.
Proof.
  unfold SFeqb, SFcompare.
  destruct a as [sa|[]| |sa ma ea], b as [sb|[]| |sb mb eb];
    try discriminate; intros Heq _.
  - destruct sa, sb; eexists; reflexivity.
  - destruct sb; discriminate.
  - destruct sa; discriminate.
  - change (Pos.compare_cont Eq ma mb) with (Pos.compare ma mb) in Heq.
    assert (sa = sb /\ ea = eb /\ ma = mb) as (-> & -> & ->).
    { destruct sa, sb; try discriminate;
        destruct (Z.compare_spec ea eb); try discriminate;
        destruct (Pos.compare_spec ma mb); try discriminate; auto. }
    exists false. apply SFsub_diag_finite.
Qed.

Lemma square_of_zero (d : float) (s : bool) :
  Prim2SF d = S754_zero s -> PrimFloat.mul d d = PrimFloat.zero.
Proof.
  intros Hd. apply Prim2SF_inj. rewrite mul_spec, Hd. destruct s; reflexivity.
Qed.

Lemma sum_of_zeros (n : nat) : Np.sum (replicate n PrimFloat.zero) = PrimFloat.zero.
Proof.
  apply (sum_keeps (fun x => x = PrimFloat.zero)).
  - reflexivity.
  - intros x y -> ->. reflexivity.
  - apply Forall_replicate. reflexivity.
Qed.

Lemma map_replicate {A B : Type} (f : A -> B) (n : nat) (a : A) :
  map f (replicate n a) = replicate n (f a).
Proof. induction n as [|n IH]; [reflexivity|]. cbn. rewrite IH. reflexivity. Qed.

Lemma zero_over_count (L : float) :
  (exists s, Prim2SF (PrimFloat.sqrt (PrimFloat.div PrimFloat.zero L)) = S754_zero s) \/
  Prim2SF (PrimFloat.sqrt (PrimFloat.div PrimFloat.zero L)) = S754_nan.
Proof.
  rewrite sqrt_spec, div_spec, Prim2SF_zero.
  destruct (Prim2SF L) as [[]|[]| |[] m e]; cbn; eauto.
Qed.

End ConstantWindow.

Lemma verdict_exact_mean (n : nat) (c x : float) (self : Detector) :
  Deque.items (data_window self) = replicate n c ->
  PrimFloat.is_finite c = true ->
  PrimFloat.eqb (Np.mean (replicate n c)) c = true ->
  verdict x self = false.
Proof.
  intros Hw Hfin Hmean. unfold verdict.
  destruct (_ <? _); [reflexivity|]. cbv zeta. rewrite Hw.
  rewrite FloatAxioms.eqb_spec in Hmean. rewrite is_finite_spec in Hfin.
  destruct (SFsub_eq_is_zero _ _ Hmean Hfin) as [s Hdev].
  rewrite <- sub_spec in Hdev.
  assert (Hstd : Np.std (replicate n c)
                 = PrimFloat.sqrt (PrimFloat.div PrimFloat.zero (Np.of_len (replicate n c)))).
  { unfold Np.std, Np.var. cbv zeta. rewrite !map_replicate.
    rewrite (square_of_zero _ s Hdev), sum_of_zeros. reflexivity. }
  rewrite Hstd.
  destruct (zero_over_count (Np.of_len (replicate n c))) as [[s' Hz]|Hnan].
  - rewrite FloatAxioms.eqb_spec, Hz, Prim2SF_zero. destruct s'; reflexivity.
  - rewrite FloatAxioms.eqb_spec, Hnan, Prim2SF_zero. cbn.
    apply ltb_nan_r, abs_div_nan_r. exact Hnan.
Qed.

(** X6: a constant stream of a finite value [c] is answered [false] at
    every call whenever the binary64 mean of [W] copies of [c] is [c]
    itself: every deviation is then zero and the zero-variance guard
    applies. *)
Theorem constant_stream_with_exact_mean
    (W : Z) (t c : float) (n : nat) :
  0 <= W -> W < 2 ^ 63 ->
  PrimFloat.is_finite c = true ->
  PrimFloat.eqb (Np.mean (replicate (Z.to_nat W) c)) c = true ->
  exists d, run W t (replicate n c) = Ok (replicate n false, d).
Proof.
  intros HW Hmax Hfin Hmean. rewrite run_eq by assumption. eexists. f_equal. f_equal.
  apply list_eq. intros i. rewrite verdicts_lookup.
  destruct (replicate n c !! i) as [x|] eqn:Hx; cbn [fmap option_fmap option_map].
  - apply lookup_lt_Some in Hx. rewrite length_replicate in Hx.
    rewrite lookup_replicate_2 by exact Hx. f_equal.
    rewrite window_push_all by assumption.
    unfold last_n. rewrite take_replicate, drop_replicate, length_replicate.
    set (k := (Nat.min (S i) n - (Nat.min (S i) n - Z.to_nat W))%nat).
    destruct (decide (k = Z.to_nat W)) as [Hk|Hk].
    + apply (verdict_exact_mean k c); [reflexivity|exact Hfin|].
      rewrite Hk. exact Hmean.
    + unfold verdict, Deque.len; cbn [data_window Deque.items window_size].
      rewrite length_replicate.
      destruct (Z.ltb_spec (Z.of_nat k) W); [reflexivity|lia].
  - apply lookup_ge_None in Hx. rewrite length_replicate in Hx.
    symmetry. apply lookup_replicate_None. exact Hx.
Qed.

Lemma constant_stream_with_exact_mean_witness :
  PrimFloat.eqb (Np.mean (replicate 8 0.1%float)) 0.1%float = true /\
  exists d, run 8 0.5%float (replicate 20 0.1%float) = Ok (replicate 20 false, d).
Proof.
  split; [vm_compute; reflexivity|].
  apply (constant_stream_with_exact_mean 8 0.5%float 0.1%float 20).
  - lia.
  - lia.
  - vm_compute. reflexivity.
  - vm_compute. reflexivity.
Defined.

(** * Properties of the generator and of the plot's bookkeeping *)

(** ** The generator *)

Lemma length_generate `{Numpy} (indices : list Z) (g : rng) :
  length (generate indices g) = length indices.
Proof.
  revert g; induction indices as [|i rest IH]; intros g; [reflexivity|].
  cbn [generate]. destruct (next_value i g) as [v g']. cbn [length].
  rewrite IH. reflexivity.
Qed.

(** ** One call of [update] *)

Lemma update_eq (f : Z) (p : Plot) (v : float) (rest : list float) :
  data_stream p = v :: rest ->
  aligned p ->
  update f p
  = (Returned,
     let b := verdict v (push v (anomaly_detector p)) in
     let ax := if b then anomalies_x p ++ [f] else anomalies_x p in
     let ay := if b then anomalies_y p ++ [v] else anomalies_y p in
     {| data_stream := rest;
        anomaly_detector := push v (anomaly_detector p);
        x_data := x_data p ++ [f]; y_data := y_data p ++ [v];
        anomalies_x := ax; anomalies_y := ay;
        line_data := (x_data p ++ [f], y_data p ++ [v]);
        scatter_offsets := zip (map float_of_int ax) ay |}).
Proof.
  unfold aligned. intros Hs Hal. unfold update. rewrite Hs, detect_eq.
  cbv zeta. unfold np_c_.
  destruct (verdict v (push v (anomaly_detector p))).
  - rewrite !length_app, Hal, Nat.eqb_refl. reflexivity.
  - rewrite Hal, Nat.eqb_refl. reflexivity.
Qed.

(** X7: the two anomaly lists being of the same length, as they are at
    the start, [update] never fails in [np.c_]: on an exhausted stream it
    raises [StopIteration] before changing anything, otherwise it returns,
    having consumed one value, appended one point to [x_data] and
    [y_data], kept the anomaly lists of the same length and handed the
    current lists to the two artists. *)
Theorem update_raises_only_StopIteration (f : Z) (p : Plot) :
  aligned p ->
  match data_stream p with
  | [] => update f p = (Raised StopIteration, p)
  | v :: rest =>
      exists p',
        update f p = (Returned, p') /\
        data_stream p' = rest /\
        x_data p' = x_data p ++ [f] /\
        y_data p' = y_data p ++ [v] /\
        aligned p' /\ synced p'
  end.
Proof.
  intros Hal. destruct (data_stream p) as [|v rest] eqn:Hs.
  - unfold update. rewrite Hs. reflexivity.
  - rewrite (update_eq f p v rest Hs Hal). eexists. split; [reflexivity|].
    cbv zeta. cbn [data_stream x_data y_data].
    repeat split; unfold aligned in *; cbn [anomalies_x anomalies_y];
      destruct (verdict _ _); rewrite ?length_app; cbn [length]; lia.
Qed.

Lemma update_raises_only_StopIteration_witness :
  exists p',
    update 7 (mkPlot [2.5; 1.0]%float (mkDetector 2 0.5%float (Deque.mk 2 [1.0]%float))
                [6] [1.0]%float [] [] ([], []) [])
    = (Returned, p') /\
    data_stream p' = [1.0]%float /\
    x_data p' = [6; 7] /\
    y_data p' = [1.0; 2.5]%float.
Proof.
  destruct (update_raises_only_StopIteration 7
              (mkPlot [2.5; 1.0]%float (mkDetector 2 0.5%float (Deque.mk 2 [1.0]%float))
                 [6] [1.0]%float [] [] ([], []) []))
    as (p' & H1 & H2 & H3 & H4 & _).
  - reflexivity.
  - exists p'. auto.
Defined.

(** ** A pass over the frames *)

Lemma animate_app (fs1 fs2 : list Z) (p : Plot) :
  animate (fs1 ++ fs2) p
  = match animate fs1 p with
    | (Returned, p') => animate fs2 p'
    | (Raised e, p') => (Raised e, p')
    end.
Proof.
  revert p; induction fs1 as [|f fs1 IH]; intros p; [reflexivity|].
  cbn [animate app]. destruct (update f p) as [[|e] p1]; [apply IH|reflexivity].
Qed.

Lemma zip_flagged (frames : list Z) (values : list float) (answers : list bool) :
  zip (map float_of_int (map fst (flagged frames values answers)))
      (map snd (flagged frames values answers))
  = map (fun q => (float_of_int q.1, q.2)) (flagged frames values answers).
Proof.
  induction (flagged frames values answers) as [|[f v] pts IH]; [reflexivity|].
  cbn. rewrite <- IH. reflexivity.
Qed.

(** The state after the frames, when the stream has a value for each. *)
Lemma animate_closed_form (frames : list Z) (p : Plot) :
  (length frames <= length (data_stream p))%nat ->
  aligned p ->
  exists p',
    animate frames p = (Returned, p') /\
    data_stream p' = drop (length frames) (data_stream p) /\
    anomaly_detector p'
    = push_all (take (length frames) (data_stream p)) (anomaly_detector p) /\
    x_data p' = x_data p ++ frames /\
    y_data p' = y_data p ++ take (length frames) (data_stream p) /\
    anomalies_x p'
    = anomalies_x p
      ++ map fst (flagged frames (take (length frames) (data_stream p))
                    (verdicts (take (length frames) (data_stream p)) (anomaly_detector p))) /\
    anomalies_y p'
    = anomalies_y p
      ++ map snd (flagged frames (take (length frames) (data_stream p))
                    (verdicts (take (length frames) (data_stream p)) (anomaly_detector p))) /\
    aligned p' /\
    (frames <> [] \/ synced p -> synced p').
Proof.
  revert p; induction frames as [|f fs IH]; intros p Hlen Hal.
  - exists p. cbn [animate length take drop flagged verdicts map].
    rewrite !app_nil_r.
    repeat (split; [first [reflexivity | assumption]|]).
    intros [Hne|Hs]; [contradiction Hne; reflexivity|exact Hs].
  - destruct (data_stream p) as [|v rest] eqn:Hs; [cbn in Hlen; lia|].
    cbn [length] in Hlen.
    cbn [animate]. rewrite (update_eq f p v rest Hs Hal). cbv zeta.
    set (b := verdict v (push v (anomaly_detector p))).
    set (p1 := mkPlot _ _ _ _ _ _ _ _).
    assert (Hal1 : aligned p1).
    { unfold aligned, p1 in *. cbn [anomalies_x anomalies_y].
      destruct b; rewrite ?length_app; cbn [length]; lia. }
    assert (Hsync1 : synced p1) by (split; reflexivity).
    destruct (IH p1) as (p' & Han & Hds & Hdet & Hx & Hy & Hax & Hay & Hal' & Hsync);
      [cbn [p1 data_stream]; lia|exact Hal1|].
    exists p'. split; [exact Han|].
    cbn [p1 data_stream anomaly_detector x_data y_data anomalies_x anomalies_y] in *.
    cbn [length take drop verdicts flagged push_all fold_left].
    fold (push_all (take (length fs) rest) (push v (anomaly_detector p))).
    fold b.
    rewrite Hds, Hdet, Hx, Hy, Hax, Hay. rewrite <- !app_assoc.
    repeat (split; [first [reflexivity | assumption
                          | destruct b; [rewrite <- app_assoc|]; reflexivity]|]).
    intros _. apply Hsync. right. exact Hsync1.
Qed.

Lemma setup_eq (stream : list float) :
  setup stream
  = Ok (mkPlot stream (mkDetector WINDOW_SIZE ANOMALY_THRESHOLD (Deque.mk WINDOW_SIZE []))
          [] [] [] [] ([], []) []).
Proof. reflexivity. Qed.

(** X8: started from the set-up state, a pass over frames for which the
    stream has values returns; it leaves [x_data] equal to the frames,
    [y_data] equal to the values consumed, the rest of the stream
    untouched, the detector's window equal to the last [50] values plotted
    (all of them when fewer), and the line showing [x_data] and [y_data]. *)
Theorem animate_records_stream (frames : list Z) (stream : list float) :
  (length frames <= length stream)%nat ->
  exists p0 p',
    setup stream = Ok p0 /\
    animate frames (init p0) = (Returned, p') /\
    x_data p' = frames /\
    y_data p' = take (length frames) stream /\
    data_stream p' = drop (length frames) stream /\
    Deque.items (data_window (anomaly_detector p')) = last_n 50 (y_data p') /\
    length (x_data p') = length (y_data p') /\
    (frames <> [] -> line_data p' = (x_data p', y_data p')).
Proof.
  intros Hlen. rewrite setup_eq.
  destruct (animate_closed_form frames
              (init (mkPlot stream
                       (mkDetector WINDOW_SIZE ANOMALY_THRESHOLD (Deque.mk WINDOW_SIZE []))
                       [] [] [] [] ([], []) [])))
    as (p' & Han & Hds & Hdet & Hx & Hy & _ & _ & _ & Hsync);
    [exact Hlen|reflexivity|].
  cbn [init data_stream anomaly_detector x_data y_data app] in *.
  unfold WINDOW_SIZE in Hdet. rewrite window_push_all in Hdet by lia.
  eexists _, p'. split; [reflexivity|]. split; [exact Han|].
  rewrite Hx, Hy, Hds, Hdet. cbn [data_window Deque.items].
  repeat (split; [first [reflexivity | rewrite length_take; lia]|]).
  intros Hne. destruct Hsync as [Hline _]; [left; exact Hne|].
  rewrite Hline, Hx, Hy. reflexivity.
Qed.

Lemma animate_records_stream_witness :
  exists p0 p',
    setup [1.0; 2.0; 3.0]%float = Ok p0 /\
    animate [0; 1] (init p0) = (Returned, p') /\
    x_data p' = [0; 1] /\
    y_data p' = [1.0; 2.0]%float /\
    data_stream p' = [3.0]%float.
Proof.
  destruct (animate_records_stream [0; 1] [1.0; 2.0; 3.0]%float)
    as (p0 & p' & H1 & H2 & H3 & H4 & H5 & _).
  - cbn. lia.
  - exists p0, p'. auto.
Defined.

(** X9: after such a pass the anomaly lists hold exactly the points
    [(frame, value)] at which the detector, fed the values consumed,
    answered [true], in order, and the scatter shows these points. *)
Theorem anomalies_are_flagged_points (frames : list Z) (stream : list float) :
  (length frames <= length stream)%nat ->
  exists p0 p' bs d,
    setup stream = Ok p0 /\
    animate frames (init p0) = (Returned, p') /\
    run WINDOW_SIZE ANOMALY_THRESHOLD (take (length frames) stream) = Ok (bs, d) /\
    anomaly_detector p' = d /\
    anomalies_x p' = map fst (flagged frames (take (length frames) stream) bs) /\
    anomalies_y p' = map snd (flagged frames (take (length frames) stream) bs) /\
    (frames <> [] ->
     scatter_offsets p'
     = map (fun q => (float_of_int q.1, q.2))
         (flagged frames (take (length frames) stream) bs)).
Proof.
  intros Hlen. rewrite setup_eq. unfold run. rewrite new_ok by (unfold WINDOW_SIZE; lia).
  rewrite detect_all_eq.
  destruct (animate_closed_form frames
              (init (mkPlot stream
                       (mkDetector WINDOW_SIZE ANOMALY_THRESHOLD (Deque.mk WINDOW_SIZE []))
                       [] [] [] [] ([], []) [])))
    as (p' & Han & _ & Hdet & _ & _ & Hax & Hay & _ & Hsync);
    [exact Hlen|reflexivity|].
  cbn [init data_stream anomaly_detector anomalies_x anomalies_y app] in *.
  eexists _, p', _, _. split; [reflexivity|]. split; [exact Han|].
  split; [reflexivity|]. split; [exact Hdet|]. split; [exact Hax|]. split; [exact Hay|].
  intros Hne. destruct Hsync as [_ Hsc]; [left; exact Hne|].
  rewrite Hsc, Hax, Hay. apply zip_flagged.
Qed.

Lemma anomalies_are_flagged_points_witness :
  exists p0 p' bs d,
    setup (replicate 45 0.2%float ++ replicate 5 0.3%float ++ [0.2%float]) = Ok p0 /\
    animate (seqZ 0 50) (init p0) = (Returned, p') /\
    run WINDOW_SIZE ANOMALY_THRESHOLD (replicate 45 0.2%float ++ replicate 5 0.3%float)
    = Ok (bs, d) /\
    anomaly_detector p' = d /\
    bs = replicate 49 false ++ [true] /\
    anomalies_x p' = [49] /\
    anomalies_y p' = [0.3%float] /\
    scatter_offsets p' = [(49.0%float, 0.3%float)].
Proof.
  destruct (anomalies_are_flagged_points (seqZ 0 50)
              (replicate 45 0.2%float ++ replicate 5 0.3%float ++ [0.2%float]))
    as (p0 & p' & bs & d & H1 & H2 & H3 & H4 & H5 & H6 & H7).
  - vm_compute. lia.
  - assert (Hbs : bs = replicate 49 false ++ [true]).
    { revert H3. vm_compute. intros [= <- _]. reflexivity. }
    exists p0, p', bs, d. repeat (split; [assumption|]).
    rewrite H5, H6, H7 by discriminate. rewrite Hbs.
    repeat split; vm_compute; reflexivity.
Defined.

(** X10: when the frames outnumber the values of the stream, the pass
    stops with [StopIteration] at the first frame without a value: the
    stream is then empty, [y_data] holds the whole stream and [x_data] the
    frames that got a value. *)
Theorem animate_stops_when_stream_ends (frames : list Z) (stream : list float) :
  (length stream < length frames)%nat ->
  exists p0 p',
    setup stream = Ok p0 /\
    animate frames (init p0) = (Raised StopIteration, p') /\
    data_stream p' = [] /\
    x_data p' = take (length stream) frames /\
    y_data p' = stream.
Proof.
  intros Hlen. rewrite setup_eq.
  destruct (animate_closed_form (take (length stream) frames)
              (init (mkPlot stream
                       (mkDetector WINDOW_SIZE ANOMALY_THRESHOLD (Deque.mk WINDOW_SIZE []))
                       [] [] [] [] ([], []) [])))
    as (p' & Han & Hds & _ & Hx & Hy & _ & _ & _ & _);
    [cbn [init data_stream]; rewrite length_take; lia|reflexivity|].
  cbn [init data_stream x_data y_data app] in Hds, Hx, Hy.
  rewrite length_take in Hds, Hy.
  replace (Nat.min (length stream) (length frames)) with (length stream) in * by lia.
  rewrite drop_all in Hds. rewrite firstn_all in Hy.
  eexists _, p'. split; [reflexivity|].
  split; [|repeat (split; [assumption|]); exact Hy].
  rewrite <- (take_drop (length stream) frames) at 1.
  rewrite animate_app, Han.
  destruct (drop (length stream) frames) as [|f fs] eqn:Hdrop.
  { apply (f_equal length) in Hdrop. rewrite length_drop in Hdrop. cbn in Hdrop. lia. }
  cbn [animate]. unfold update. rewrite Hds. reflexivity.
Qed.

Lemma animate_stops_when_stream_ends_witness :
  exists p0 p',
    setup [1.0; 2.0]%float = Ok p0 /\
    animate [0; 1; 2; 3] (init p0) = (Raised StopIteration, p') /\
    data_stream p' = [] /\
    x_data p' = [0; 1] /\
    y_data p' = [1.0; 2.0]%float.
Proof.
  apply (animate_stops_when_stream_ends [0; 1; 2; 3] [1.0; 2.0]%float).
  cbn. lia.
Defined.

(** ** The pass of [real_time_plot] *)

Lemma verdicts_warm_up (W : Z) (t : float) (samples : list float) (i : nat) (b : bool) :
  0 <= W ->
  verdicts samples (mkDetector W t (Deque.mk W [])) !! i = Some b ->
  Z.of_nat i < W - 1 ->
  b = false.
Proof.
  intros HW Hi Hlt. rewrite verdicts_lookup in Hi.
  destruct (samples !! i) as [x|] eqn:Hx; [|discriminate].
  cbn in Hi. injection Hi as <-.
  apply lookup_lt_Some in Hx.
  rewrite window_push_all by assumption.
  unfold verdict, Deque.len; cbn [data_window Deque.items window_size].
  rewrite length_last_n, length_take.
  destruct (Z.ltb_spec (Z.of_nat (Nat.min (Z.to_nat W) (Nat.min (S i) (length samples)))) W);
    [reflexivity|lia].
Qed.

Lemma flagged_lookup (frames : list Z) (values : list float) (answers : list bool) (f : Z) :
  In f (map fst (flagged frames values answers)) ->
  exists i, frames !! i = Some f /\ answers !! i = Some true.
Proof.
  revert values answers; induction frames as [|f0 fs IH]; intros values answers Hin;
    [contradiction Hin|].
  destruct values as [|v vs]; [contradiction Hin|].
  destruct answers as [|b bs]; [contradiction Hin|].
  cbn [flagged] in Hin. destruct b.
  - cbn [map fst In] in Hin. destruct Hin as [<-|Hin].
    + exists 0%nat. split; reflexivity.
    + destruct (IH _ _ Hin) as (i & Hf & Hb). exists (S i). split; assumption.
  - destruct (IH _ _ Hin) as (i & Hf & Hb). exists (S i). split; assumption.
Qed.

Lemma real_time_plot_eq `{Numpy} (g : rng) :
  exists p,
    real_time_plot g = Ok (Returned, p) /\
    data_stream p = [] /\
    x_data p = seqZ 0 1000 /\
    y_data p = data_stream_simulation g /\
    anomalies_x p
    = map fst (flagged (seqZ 0 1000) (data_stream_simulation g)
                 (verdicts (data_stream_simulation g)
                    (mkDetector WINDOW_SIZE ANOMALY_THRESHOLD (Deque.mk WINDOW_SIZE [])))) /\
    aligned p.
Proof.
  unfold real_time_plot. rewrite setup_eq.
  pose proof (length_generate (seqZ 0 STREAM_LENGTH) g) as Hlen1000.
  rewrite length_seqZ in Hlen1000.
  change (Z.to_nat STREAM_LENGTH) with 1000%nat in Hlen1000.
  fold (data_stream_simulation g) in Hlen1000.
  destruct (animate_closed_form (seqZ 0 1000)
              (init (mkPlot (data_stream_simulation g)
                       (mkDetector WINDOW_SIZE ANOMALY_THRESHOLD (Deque.mk WINDOW_SIZE []))
                       [] [] [] [] ([], []) [])))
    as (p & Han & Hds & _ & Hx & Hy & Hax & _ & Hal & _);
    [cbn [init data_stream]; rewrite length_seqZ; lia|reflexivity|].
  cbn [init data_stream anomaly_detector x_data y_data anomalies_x app] in *.
  rewrite length_seqZ in *. change (Z.to_nat 1000) with 1000%nat in *.
  rewrite <- Hlen1000 in Hds, Hy, Hax.
  rewrite drop_all in Hds. rewrite firstn_all in Hy, Hax.
  exists p. rewrite Han. repeat (split; [first [reflexivity | assumption]|]). exact Hal.
Qed.

(** X11: one pass of [real_time_plot] over [range(1000)] returns, for
    every sine and every random draw: the generator has a value for each
    frame, [x_data] is [0 .. 999] and [y_data] the whole stream; the stream
    is then exhausted, so that any further [update] raises [StopIteration]
    and changes nothing. *)
Theorem real_time_plot_consumes_stream `{Numpy} (g : rng) :
  exists p,
    real_time_plot g = Ok (Returned, p) /\
    x_data p = seqZ 0 1000 /\
    y_data p = data_stream_simulation g /\
    length (y_data p) = 1000%nat /\
    forall f : Z, update f p = (Raised StopIteration, p).
Proof.
  destruct (real_time_plot_eq g) as (p & Hrun & Hds & Hx & Hy & _ & _).
  exists p. repeat (split; [assumption|]). split.
  - rewrite Hy. unfold data_stream_simulation.
    rewrite length_generate, length_seqZ. reflexivity.
  - intros f. unfold update. rewrite Hds. reflexivity.
Qed.

(** X13: in a pass of [real_time_plot] no anomaly is recorded during the
    first [49] frames, whatever the stream: every recorded anomaly frame
    lies between [49] and [999]; the two anomaly lists end with the same
    length. *)
Theorem real_time_plot_warm_up `{Numpy} (g : rng) :
  exists p,
    real_time_plot g = Ok (Returned, p) /\
    Forall (fun a => 49 <= a <= 999) (anomalies_x p) /\
    length (anomalies_x p) = length (anomalies_y p).
Proof.
  destruct (real_time_plot_eq g) as (p & Hrun & _ & _ & _ & Hax & Hal).
  exists p. split; [exact Hrun|]. split; [|exact Hal].
  apply Forall_forall. intros a Ha. apply list_elem_of_In in Ha. rewrite Hax in Ha.
  destruct (flagged_lookup _ _ _ _ Ha) as (i & Hf & Hb).
  apply lookup_seqZ in Hf as [-> Hi].
  destruct (Z_lt_le_dec (Z.of_nat i) 49) as [Hlt|Hge]; [|lia].
  apply (verdicts_warm_up WINDOW_SIZE) in Hb; [discriminate|unfold WINDOW_SIZE; lia..].
Qed.

(** On the flat stand-in the injected points, and only they, are recorded:
    each stands [7] standard deviations away from the mean of its window. *)
Example real_time_plot_flat :
  exists p,
    real_time_plot (H := flat_numpy) 0 = Ok (Returned, p) /\
    anomalies_x p = [60; 160; 260; 360; 460; 560; 660; 760; 860; 960] /\
    anomalies_y p = replicate 10 15.0%float.
Proof. eexists. vm_compute. repeat split. Qed.
